(** * WhataWatch list scraper: a shallow embedding and its checked properties

    The development embeds the two Python sources of the repository,
    [listscraper/scrape_functions.py] and [letterboxdpy/diary.py], as Rocq
    functions and proves (or refutes on concrete inputs) the properties the
    specification states about them.

    Conventions of the embedding.
    - Python exceptions are values of [exn]; a computation that may raise
      has type [result A].  [try: ... except: ...] is [try_except].
    - Python [str] is [string]; the operations the code uses (strip, slices,
      [re.findall(r'\d+')], [int], [float]) are written out on the list of
      characters.  Texts are ASCII except for a few literal keys (the star
      glyphs, the ellipsis), which are only compared as whole strings.
    - Python [float] is IEEE binary64, [spec_float] with [prec = 53] and
      [emax = 1024].
    - The HTML query capability (BeautifulSoup) is out of the program: a
      parsed document is the record of the answers to the queries the code
      asks of it, [None] standing for a query that finds nothing.
    - The HTTP capability is a function from URLs to responses. *)

From Stdlib Require Import ZArith List String Ascii Bool Lia.
From Stdlib Require Import Floats.SpecFloat.
From Stdlib Require DecimalString.
Import ListNotations.

Open Scope string_scope.
Open Scope Z_scope.

#[local] Set Warnings "-register-all".

(** ** Python values, exceptions and strings *)

Module Py.

Inductive exn : Set :=
  | AttributeError | TypeError | KeyError | IndexError | ValueError
  | OverflowError | ZeroDivisionError | NameError | ConnectionError
  | InvalidRating.

Inductive result (A : Type) : Type :=
  | Ok (a : A)
  | Raise (e : exn).
Arguments Ok {A} a.
Arguments Raise {A} e.

Definition bind {A B} (c : result A) (k : A -> result B) : result B :=
  match c with
  | Ok a => k a
  | Raise e => Raise e
  end.

(** [try: c  except: h] with a bare [except]. *)
Definition try_except {A} (c : result A) (h : A) : A :=
  match c with
  | Ok a => a
  | Raise _ => h
  end.

Definition exn_eqb (a b : exn) : bool :=
  match a, b with
  | AttributeError, AttributeError | TypeError, TypeError
  | KeyError, KeyError | IndexError, IndexError | ValueError, ValueError
  | OverflowError, OverflowError | ZeroDivisionError, ZeroDivisionError
  | NameError, NameError | ConnectionError, ConnectionError
  | InvalidRating, InvalidRating => true
  | _, _ => false
  end.

(** [try: c  except (E1, E2, ...): h]: other exceptions propagate. *)
Definition try_except_only {A} (caught : list exn) (c : result A) (h : A)
  : result A :=
  match c with
  | Ok a => Ok a
  | Raise e => if existsb (exn_eqb e) caught then Ok h else Raise e
  end.

(** [x.attr] or [x[...]] on the answer of a [find]: [None] has neither. *)
Definition of_option {A} (e : exn) (o : option A) : result A :=
  match o with
  | Some a => Ok a
  | None => Raise e
  end.

Definition is_ok {A} (c : result A) : bool :=
  match c with Ok _ => true | Raise _ => false end.

(** *** Characters *)

Definition chars := list ascii.

Definition code (c : ascii) : Z := Z.of_N (N_of_ascii c).

Definition is_digit (c : ascii) : bool := (48 <=? code c) && (code c <=? 57).

(** ASCII characters for which [str.isspace] holds. *)
Definition is_space (c : ascii) : bool :=
  ((9 <=? code c) && (code c <=? 13)) || ((28 <=? code c) && (code c <=? 32)).

Definition digit_val (c : ascii) : Z := code c - 48.

Definition ascii_lower (c : ascii) : ascii :=
  if (65 <=? code c) && (code c <=? 90)
  then ascii_of_N (N_of_ascii c + 32) else c.

(** *** Strings *)

Definition chars_of (s : string) : chars := list_ascii_of_string s.
Definition str_of (l : chars) : string := string_of_list_ascii l.

Fixpoint lstrip_by (p : ascii -> bool) (l : chars) : chars :=
  match l with
  | c :: l' => if p c then lstrip_by p l' else l
  | [] => []
  end.

Definition rstrip_by (p : ascii -> bool) (l : chars) : chars :=
  rev (lstrip_by p (rev l)).

Definition strip_by (p : ascii -> bool) (l : chars) : chars :=
  rstrip_by p (lstrip_by p l).

Definition in_set (set : string) (c : ascii) : bool :=
  existsb (Ascii.eqb c) (chars_of set).

(** [s.strip()], [s.strip(set)], [s.rstrip(set)]. *)
Definition strip (s : string) : string := str_of (strip_by is_space (chars_of s)).
Definition strip_chars (set s : string) : string :=
  str_of (strip_by (in_set set) (chars_of s)).
Definition rstrip_chars (set s : string) : string :=
  str_of (rstrip_by (in_set set) (chars_of s)).

(** [s[:n]], [s[n:]], [s[:-1]], [s[-1]]. *)
Definition slice_to (n : nat) (s : string) : string := str_of (firstn n (chars_of s)).
Definition slice_from (n : nat) (s : string) : string := str_of (skipn n (chars_of s)).
Definition drop_last (s : string) : string := str_of (removelast (chars_of s)).
Definition last_char (s : string) : result string :=
  match rev (chars_of s) with
  | c :: _ => Ok (String c EmptyString)
  | [] => Raise IndexError
  end.

Fixpoint starts_with (p l : chars) : bool :=
  match p, l with
  | [], _ => true
  | a :: p', b :: l' => Ascii.eqb a b && starts_with p' l'
  | _ :: _, [] => false
  end.

Fixpoint contains_chars (p l : chars) : bool :=
  starts_with p l ||
  match l with
  | [] => false
  | _ :: l' => contains_chars p l'
  end.

(** [sub in s] and [re.compile(sub).search(s)] for a literal [sub]. *)
Definition contains (sub s : string) : bool :=
  contains_chars (chars_of sub) (chars_of s).

(** [s.replace(old, new)] for a non-empty [old]. *)
Fixpoint replace_chars (old new : chars) (fuel : nat) (l : chars) : chars :=
  match fuel with
  | O => l
  | S fuel' =>
      match l with
      | [] => []
      | c :: l' =>
          if starts_with old l
          then (new ++ replace_chars old new fuel' (skipn (List.length old) l))%list
          else c :: replace_chars old new fuel' l'
      end
  end.

Definition replace (old new s : string) : string :=
  str_of (replace_chars (chars_of old) (chars_of new)
            (S (String.length s)) (chars_of s)).

(** [s.split(sep)] for a single character [sep]. *)
Fixpoint split_chars (sep : ascii) (cur : chars) (l : chars) : list string :=
  match l with
  | [] => [str_of (rev cur)]
  | c :: l' =>
      if Ascii.eqb c sep
      then str_of (rev cur) :: split_chars sep [] l'
      else split_chars sep (c :: cur) l'
  end.

Definition split (sep : ascii) (s : string) : list string :=
  split_chars sep [] (chars_of s).

(** [l[-2]]. *)
Definition index_m2 {A} (l : list A) : result A :=
  match rev l with
  | _ :: a :: _ => Ok a
  | _ => Raise IndexError
  end.

(** [l[-1]]. *)
Definition index_m1 {A} (l : list A) : result A :=
  match rev l with
  | a :: _ => Ok a
  | _ => Raise IndexError
  end.

(** [l[0]]. *)
Definition index_0 {A} (l : list A) : result A :=
  match l with
  | a :: _ => Ok a
  | _ => Raise IndexError
  end.

(** [''.join(l)]. *)
Definition join (l : list string) : string := String.concat "" l.

(** *** [re.findall(r'\d+', s)] and [re.search(r'\d+', s)]

    The maximal runs of digits, left to right. *)
Fixpoint digit_runs (cur : chars) (l : chars) : list string :=
  match l with
  | [] => match cur with [] => [] | _ => [str_of (rev cur)] end
  | c :: l' =>
      if is_digit c then digit_runs (c :: cur) l'
      else match cur with
           | [] => digit_runs [] l'
           | _ => str_of (rev cur) :: digit_runs [] l'
           end
  end.

Definition findall_digits (s : string) : list string :=
  digit_runs [] (chars_of s).

(** [re.search(r'\d+', s).group()]: [search] answers [None] without a digit. *)
Definition search_digits (s : string) : result string :=
  of_option AttributeError (hd_error (findall_digits s)).

(** *** [int(s)] for a string

    [digitpart ::= digit (["_"] digit)*], read greedily; the digits read and
    what is left. *)
Fixpoint digitpart_more (l : chars) (acc : chars) : chars * chars :=
  match l with
  | c :: l' =>
      if is_digit c then digitpart_more l' (c :: acc)
      else if Ascii.eqb c "_" then
        match l' with
        | d :: l'' =>
            if is_digit d then digitpart_more l'' (d :: acc) else (rev acc, l)
        | [] => (rev acc, l)
        end
      else (rev acc, l)
  | [] => (rev acc, [])
  end.

Definition digitpart (l : chars) : option (chars * chars) :=
  match l with
  | c :: l' => if is_digit c then Some (digitpart_more l' [c]) else None
  | [] => None
  end.

Definition nat_of_digits (ds : chars) : Z :=
  fold_left (fun acc c => 10 * acc + digit_val c) ds 0.

Definition split_sign (l : chars) : bool * chars :=
  match l with
  | c :: l' =>
      if Ascii.eqb c "-" then (true, l')
      else if Ascii.eqb c "+" then (false, l')
      else (false, l)
  | [] => (false, [])
  end.

Definition py_int (s : string) : result Z :=
  let '(neg, l) := split_sign (strip_by is_space (chars_of s)) in
  match digitpart l with
  | Some (ds, []) => Ok (if neg then - nat_of_digits ds else nat_of_digits ds)
  | _ => Raise ValueError
  end.

(** *** binary64 *)

Definition float := spec_float.
Definition prec : Z := 53.
Definition emax : Z := 1024.

Definition nan : float := S754_nan.

(** The binary64 number nearest to [m * 2^0] for an integer [m]. *)
Definition float_of_Z (m : Z) : float := binary_normalize prec emax m 0 false.

(** The binary64 number nearest to [p / q], ties to even. *)
Definition float_of_ratio (neg : bool) (p q : positive) : float :=
  let '(mz, ez, lz) := SFdiv_core_binary prec emax (Zpos p) 0 (Zpos q) 0 in
  binary_round_aux prec emax neg mz ez lz.

(** The binary64 number nearest to [m * 10^e]. *)
Definition float_of_decimal (neg : bool) (m : Z) (e : Z) : float :=
  match m with
  | Zpos p =>
      if 0 <=? e
      then binary_normalize prec emax (if neg then - (m * 10 ^ e) else m * 10 ^ e) 0 false
      else float_of_ratio neg p (Z.to_pos (10 ^ (- e)))
  | _ => S754_zero neg
  end.

Definition fmul (x y : float) : float := SFmul prec emax x y.
Definition feqb (x y : float) : bool := SFeqb x y.

(** [a / b] on two [int]s: the nearest float of the quotient. *)
Definition int_truediv (a b : Z) : result float :=
  match b with
  | Z0 => Raise ZeroDivisionError
  | _ =>
      let neg := xorb (a <? 0) (b <? 0) in
      let f := match Z.abs a with
               | Zpos p => float_of_ratio neg p (Z.to_pos (Z.abs b))
               | _ => S754_zero (b <? 0)
               end in
      match f with
      | S754_infinity _ => Raise OverflowError
      | _ => Ok f
      end
  end.

(** [int(x)] on a float: truncation towards zero. *)
Definition int_of_float (x : float) : result Z :=
  match x with
  | S754_zero _ => Ok 0
  | S754_finite s m e =>
      let a := if 0 <=? e then Z.shiftl (Zpos m) e else Z.shiftr (Zpos m) (- e) in
      Ok (if s then - a else a)
  | S754_infinity _ => Raise OverflowError
  | S754_nan => Raise ValueError
  end.

(** *** [float(s)] for a string

    [floatvalue ::= [sign] (floatnumber | "inf" | "infinity" | "nan")],
    [floatnumber ::= ([digitpart] "." digitpart | digitpart ["."]) [exponent]],
    [exponent ::= ("e" | "E") [sign] digitpart], surrounded by whitespace. *)
Definition parse_exponent (l : chars) : option Z :=
  match l with
  | [] => Some 0
  | c :: l' =>
      if Ascii.eqb (ascii_lower c) "e" then
        let '(neg, l'') := split_sign l' in
        match digitpart l'' with
        | Some (ds, []) => Some (if neg then - nat_of_digits ds else nat_of_digits ds)
        | _ => None
        end
      else None
  end.

Definition parse_floatnumber (l : chars) : option (Z * Z) :=
  let '(ip, r1) := match digitpart l with
                   | Some (ds, r) => (ds, r)
                   | None => ([], l)
                   end in
  let '(dot, r2) := match r1 with
                    | c :: r => if Ascii.eqb c "." then (true, r) else (false, r1)
                    | [] => (false, [])
                    end in
  let '(fp, r3) := if dot then
                     match digitpart r2 with
                     | Some (ds, r) => (ds, r)
                     | None => ([], r2)
                     end
                   else ([], r2) in
  match ip, fp with
  | [], [] => None
  | _, _ =>
      match parse_exponent r3 with
      | Some e => Some (nat_of_digits (ip ++ fp)%list, e - Z.of_nat (List.length fp))
      | None => None
      end
  end.

Definition py_float (s : string) : result float :=
  let '(neg, l) := split_sign (strip_by is_space (chars_of s)) in
  let low := str_of (map ascii_lower l) in
  if String.eqb low "inf" || String.eqb low "infinity" then Ok (S754_infinity neg)
  else if String.eqb low "nan" then Ok S754_nan
  else match parse_floatnumber l with
       | Some (m, e) => Ok (float_of_decimal neg m e)
       | None => Raise ValueError
       end.

(** [f"{n}"] for an [int]. *)
Definition str_of_int (n : Z) : string :=
  DecimalString.NilZero.string_of_int (Z.to_int n).

(** *** Values stored in the scraped records

    [np.nan] is [VFloat nan]. *)
Inductive value : Type :=
  | VNone
  | VFloat (f : float)
  | VInt (n : Z)
  | VStr (s : string)
  | VList (l : list string).

(** *** [dict] with string keys

    Python keeps the insertion order, and an assignment to a key that is
    already there keeps its place. *)
Definition dict := list (string * value).

Fixpoint dict_set (k : string) (v : value) (d : dict) : dict :=
  match d with
  | [] => [(k, v)]
  | (k', v') :: d' =>
      if String.eqb k k' then (k, v) :: d' else (k', v') :: dict_set k v d'
  end.

Fixpoint dict_get (k : string) (d : dict) : option value :=
  match d with
  | [] => None
  | (k', v') :: d' => if String.eqb k k' then Some v' else dict_get k d'
  end.

Definition keys (d : dict) : list string := map fst d.

End Py.

Import Py.

Notation "x <- c ;; k" := (bind c (fun x => k))
  (at level 61, c at next level, right associativity).
Notation "' p <- c ;; k" := (bind c (fun x => let 'p := x in k))
  (at level 61, p pattern, c at next level, right associativity).

(** ** The rating scale *)

Module Utility.

(** The float [n / 2]. *)
Definition increment (n : positive) : float := float_of_ratio false n 2.

(** Modelled from the spec: [listscraper/utility_functions.py], the module
    that defines [val2stars] and [stars2val], is not among the sources.  The
    specification gives a RatingScale that maps each of the 10 half-star
    increments 0.5 ... 5.0 to its star-glyph text, full stars followed by
    an optional half. *)
Definition rating_scale : list (float * string) :=
  [ (increment 1, "½");     (increment 2, "★");
    (increment 3, "★½");    (increment 4, "★★");
    (increment 5, "★★½");   (increment 6, "★★★");
    (increment 7, "★★★½");  (increment 8, "★★★★");
    (increment 9, "★★★★½"); (increment 10, "★★★★★") ].

(** Modelled from the spec: [valueToStars(value)] is the inverse of
    [starsToValue]; the value must be one of the 10 valid increments or the
    function fails with an InvalidRating condition. *)
Definition val2stars (val : float) (not_found : value) : result string :=
  match find (fun p => feqb val (fst p)) rating_scale with
  | Some (_, stars) => Ok stars
  | None => Raise InvalidRating
  end.

(** Modelled from the spec: [starsToValue(text)] maps a sequence of full and
    half star glyphs to a rating in 0.5 ... 5.0; unrecognized glyphs yield
    the caller-supplied sentinel. *)
Definition stars2val (stars : string) (not_found : value) : value :=
  match find (fun p => String.eqb stars (snd p)) rating_scale with
  | Some (val, _) => VFloat val
  | None => not_found
  end.

End Utility.

Import Utility.

(** ** listscraper/scrape_functions.py *)

Module Scrape.

Definition _domain : string := "https://letterboxd.com/".

(** *** Parsed documents: the answers to the queries of the code *)

(** One [<li>] of a list page, the [film_html] of [scrape_film]. *)
Record li_tag := {
  (** [find('div')], and on it [get('data-target-link')] *)
  li_div_target_link : option (option string);
  (** [attrs['data-owner-rating']] *)
  li_data_owner_rating : option string;
  (** the [text] of each of [find_all("span")] *)
  li_spans : list string
}.

(** An [<a href=...>]: its [href] and its [contents[0]]. *)
Record anchor := {
  a_href : string;
  a_contents0 : option string
}.

(** The film page. *)
Record film_page := {
  (** [find("div", {"class": "col-17"})], and on it [find("h1")], its [text] *)
  fp_col17_h1 : option (option string);
  (** for each of [find_all('div', class_='releaseyear')]: [find('a')], its [text] *)
  fp_releaseyear : list (option string);
  (** [find('meta', attrs={'name': 'twitter:data1'})], its [attrs['content']] *)
  fp_twitter_data1 : option (option string);
  (** [find('div', attrs={'id': 'tab-cast'})], the [contents[0]] of its [find_all('a')] *)
  fp_tab_cast : option (list (option string));
  (** [find('meta', attrs={'name': 'twitter:data2'})], its [attrs['content']] *)
  fp_twitter_data2 : option (option string);
  (** [find('div', {'class': 'text-sluglist capitalize'})], the [text] of
      its [find_all('a', {'class': 'text-slug'})] *)
  fp_genres : option (list string);
  (** [find('p', {'class': 'text-link text-footer'})], its [text] *)
  fp_footer : option string;
  (** [find('div', attrs={'id': 'tab-details'})], its [<a>] that have an [href] *)
  fp_tab_details : option (list anchor);
  (** [find('meta', attrs={'name': 'description'})], its [attrs['content']] *)
  fp_description : option (option string)
}.

(** The stats fragment: each [find('a', {'class': ...})] and its ["title"]. *)
Record stats_page := {
  sp_watched : option (option string);
  sp_list : option (option string);
  sp_like : option (option string)
}.

(** The rating-histogram fragment. *)
Record hist_page := {
  (** [find('a', {'class': 'all-link more-link'})], its [text] *)
  hp_all_link : option string;
  (** the [text] of each of [find_all("li", {'class': 'rating-histogram-bar'})] *)
  hp_bars : list string
}.

(** A list page. *)
Record list_page := {
  (** [find('ul', class_='poster-list')], its [find_all('li')] *)
  lp_ul_poster_list : option (list li_tag);
  (** [find('ul', class_='list-entries')], its [find_all('li')] *)
  lp_ul_list_entries : option (list li_tag);
  (** [find('section', class_='poster-list')], its [find_all('li')] *)
  lp_section_poster_list : option (list li_tag);
  (** [find('a', class_='next')], its [href] attribute *)
  lp_next : option (option string)
}.

(** The rating tag of a diary entry. *)
Record rating_tag := {
  rt_data_rating : option string;
  (** [get_text(strip=True)] *)
  rt_text : string
}.

(** One entry of a diary page. *)
Record diary_entry := {
  (** the first tag found among the class [entry-dates], [time] and
      [span.date]; its [get_text(strip=True)] *)
  de_date : option string;
  (** [find('a', href=True)]: its [get_text(strip=True)] and its [href] *)
  de_film_link : option (string * string);
  (** the first of [small.year] and [span.film-year]; its [get_text(strip=True)] *)
  de_year : option string;
  (** [select_one(".rating, .film-rating, .diary-rating")] *)
  de_rating : option rating_tag;
  (** [select_one('p')], its [get_text(strip=True)] *)
  de_p : option string
}.

(** A diary page. *)
Record diary_page := {
  dp_li_diary_entry : list diary_entry;
  dp_div_diary_entry : list diary_entry;
  dp_article_diary_entry : list diary_entry;
  dp_li_entry : list diary_entry;
  (** [find_all('article')] *)
  dp_articles : list diary_entry
}.

(** A parsed body answers the queries of every kind of page. *)
Record document := {
  as_list : list_page;
  as_film : film_page;
  as_stats : stats_page;
  as_hist : hist_page;
  as_diary : diary_page
}.

Record response := {
  status_code : Z;
  content : document
}.

(** [requests.get]: a response, or an exception of the transport. *)
Definition web := string -> result response.

(** A body with none of the elements the code looks for, such as an error page. *)
Definition no_list : list_page :=
  {| lp_ul_poster_list := None; lp_ul_list_entries := None;
     lp_section_poster_list := None; lp_next := None |}.
Definition no_film : film_page :=
  {| fp_col17_h1 := None; fp_releaseyear := []; fp_twitter_data1 := None;
     fp_tab_cast := None; fp_twitter_data2 := None; fp_genres := None;
     fp_footer := None; fp_tab_details := None; fp_description := None |}.
Definition no_stats : stats_page :=
  {| sp_watched := None; sp_list := None; sp_like := None |}.
Definition no_hist : hist_page := {| hp_all_link := None; hp_bars := [] |}.
Definition no_diary : diary_page :=
  {| dp_li_diary_entry := []; dp_div_diary_entry := [];
     dp_article_diary_entry := []; dp_li_entry := []; dp_articles := [] |}.
Definition empty_document : document :=
  {| as_list := no_list; as_film := no_film; as_stats := no_stats;
     as_hist := no_hist; as_diary := no_diary |}.

(** *** scrape_film *)

(** [[line.contents[0] for line in anchors]]: an empty [contents] has no
    element 0. *)
Fixpoint all_contents0 (l : list (option string)) : result (list string) :=
  match l with
  | [] => Ok []
  | c :: l' =>
      x <- of_option IndexError c ;;
      xs <- all_contents0 l' ;;
      Ok (x :: xs)
  end.

(** [find_all('a', href=re.compile(word))] inside the details tab. *)
Definition anchors_matching (word : string) (l : list anchor) : list (option string) :=
  map a_contents0 (filter (fun a => contains word (a_href a)) l).

(** [list(sorted(set(l), key=l.index))]: the distinct elements of [l], in
    the order of their first occurrence. *)
Fixpoint unique_first (seen : list string) (l : list string) : list string :=
  match l with
  | [] => []
  | x :: l' =>
      if existsb (String.eqb x) seen then unique_first seen l'
      else x :: unique_first (x :: seen) l'
  end.

(** The no-break space, U+00A0. *)
Definition nbsp : string :=
  String (ascii_of_nat 194) (String (ascii_of_nat 160) EmptyString).

Definition release_year_of (film_soup : film_page) : result Z :=
  try_except_only [AttributeError; IndexError; ValueError]
    (let release_years := fp_releaseyear film_soup in
     if (1 <? Z.of_nat (List.length release_years)) then
       a <- of_option AttributeError (nth 1 release_years None) ;;
       let year_text := strip a in
       if negb (String.eqb year_text "") then py_int year_text else Ok 0
     else Ok 0)
    0.

Definition cast_of (film_soup : film_page) (not_found : value) : value :=
  try_except
    (div <- of_option AttributeError (fp_tab_cast film_soup) ;;
     cast <- all_contents0 div ;;
     Ok (VList (filter (fun i => negb (String.eqb i "Show All…")) cast)))
    not_found.

Definition average_rating_of (film_soup : film_page) (not_found : value) : value :=
  try_except
    (meta <- of_option AttributeError (fp_twitter_data2 film_soup) ;;
     c <- of_option KeyError meta ;;
     f <- py_float (slice_to 4 c) ;;
     Ok (VFloat f))
    not_found.

Definition owner_rating_of (film_html : li_tag) (not_found : value) : value :=
  try_except
    (stringval <- of_option KeyError (li_data_owner_rating film_html) ;;
     if negb (String.eqb stringval "0") then
       n <- py_int stringval ;;
       f <- int_truediv n 2 ;;
       Ok (VFloat f)
     else Ok not_found)
    (* Extra clause for type 'film' lists *)
    (try_except
       (starval <- index_m1 (li_spans film_html) ;;
        Ok (stars2val starval not_found))
       not_found).

Definition genres_of (film_soup : film_page) (not_found : value) : value :=
  try_except
    (genres <- of_option AttributeError (fp_genres film_soup) ;;
     Ok (VList genres))
    not_found.

Definition runtime_of (film_soup : film_page) (not_found : value) : value :=
  try_except
    (p <- of_option AttributeError (fp_footer film_soup) ;;
     g <- search_digits p ;;
     n <- py_int g ;;
     Ok (VInt n))
    not_found.

(** Countries and Studios: the links of the details tab whose [href]
    holds [word]. *)
Definition details_of (word : string) (film_soup : film_page) (not_found : value)
  : value :=
  try_except
    (div <- of_option AttributeError (fp_tab_details film_soup) ;;
     l <- all_contents0 (anchors_matching word div) ;;
     Ok (match l with [] => not_found | _ => VList l end))
    not_found.

(** Original_language and Spoken_languages. *)
Definition languages_of (film_soup : film_page) (not_found : value) : value * value :=
  try_except
    (div <- of_option AttributeError (fp_tab_details film_soup) ;;
     l <- all_contents0 (anchors_matching "language" div) ;;
     let languages := map (replace nbsp " ") l in
     original <- index_0 languages ;;
     Ok (VStr original, VList (unique_first [] languages)))
    (not_found, not_found).

Definition description_of (film_soup : film_page) (not_found : value) : value :=
  try_except
    (meta <- of_option AttributeError (fp_description film_soup) ;;
     c <- of_option KeyError meta ;;
     Ok (VStr c))
    not_found.

(** [int(''.join(re.findall(r'\d+', tag["title"])))] on the answer of a
    [find]: the count of Watches, List_appearances and Likes. *)
Definition count_of_title (tag : option (option string)) : result Z :=
  t <- of_option TypeError tag ;;
  title <- of_option KeyError t ;;
  py_int (join (findall_digits title)).

(** [re.findall(r'\d+.\d+K?|\d+K?', fans)[0]].

    [span_digits l] is the maximal run of digits at the head of [l] and the
    rest. *)
Fixpoint span_digits (l : chars) : chars * chars :=
  match l with
  | c :: l' =>
      if is_digit c then let '(ds, r) := span_digits l' in (c :: ds, r)
      else ([], l)
  | [] => ([], [])
  end.

(** [K?] *)
Definition opt_K (l : chars) : chars :=
  match l with
  | c :: _ => if Ascii.eqb c "K" then [c] else []
  | [] => []
  end.

(** [\d+.\d+K?] at the head of [l]: the first [\d+] is greedy and gives
    back one digit at a time, so it holds [n] characters for [n] from the
    length of the run down to 1; [.] is any character but a newline. *)
Fixpoint match_decimal (n : nat) (l : chars) : option chars :=
  match n with
  | O => None
  | S n' =>
      match skipn n l with
      | c :: after =>
          match span_digits after with
          | (d :: ds, r) =>
              if Ascii.eqb c "010" then match_decimal n' l
              else Some (firstn n l ++ c :: d :: ds ++ opt_K r)%list
          | ([], _) => match_decimal n' l
          end
      | [] => match_decimal n' l
      end
  end.

(** A match of [\d+.\d+K?|\d+K?] that starts at the head of [l]. *)
Definition match_fans_here (l : chars) : option chars :=
  match span_digits l with
  | ([], _) => None
  | (run, rest) =>
      match match_decimal (List.length run) l with
      | Some m => Some m
      | None => Some (run ++ opt_K rest)%list
      end
  end.

(** The leftmost match. *)
Fixpoint first_fans_match (l : chars) : result string :=
  match l with
  | [] => Raise IndexError
  | _ :: l' =>
      match match_fans_here l with
      | Some m => Ok (str_of m)
      | None => first_fans_match l'
      end
  end.

(** The number of fans, given in 'K' notation. *)
Definition fans_of (hist_soup : hist_page) : Z :=
  try_except
    (fans <- of_option AttributeError (hp_all_link hist_soup) ;;
     fans <- first_fans_match (chars_of fans) ;;
     if negb (String.eqb "." "") && contains "K" fans then
       f <- py_float (drop_last fans) ;;
       int_of_float (fmul f (float_of_Z 1000))
     else if contains "K" fans then
       c <- last_char fans ;;
       n <- py_int c ;;
       Ok (n * 1000)
     else
       py_int fans)
    0.

(** The loop over [enumerate(ratings)]. *)
Fixpoint histogram_bars (i : Z) (ratings : list string) (not_found : value)
    (film_dict : dict) (tot_ratings : Z) : result (dict * Z) :=
  match ratings with
  | [] => Ok (film_dict, tot_ratings)
  | r :: rest =>
      let string' := strip_chars " " r in
      val <- int_truediv (i + 1) 2 ;;
      stars <- val2stars val not_found ;;
      if String.eqb string' "" then
        histogram_bars (i + 1) rest not_found
          (dict_set stars (VInt 0) film_dict) tot_ratings
      else
        Nratings <- py_int (join (removelast (findall_digits string'))) ;;
        histogram_bars (i + 1) rest not_found
          (dict_set stars (VInt Nratings) film_dict) (tot_ratings + Nratings)
  end.

(** The loop over [range(10)] of a film without ratings. *)
Fixpoint histogram_zeros (range : list Z) (not_found : value) (film_dict : dict)
  : result dict :=
  match range with
  | [] => Ok film_dict
  | i :: rest =>
      val <- int_truediv (i + 1) 2 ;;
      stars <- val2stars val not_found ;;
      histogram_zeros rest not_found (dict_set stars (VInt 0) film_dict)
  end.

Definition range10 : list Z := [0; 1; 2; 3; 4; 5; 6; 7; 8; 9].

Definition histogram (hist_soup : hist_page) (not_found : value) (film_dict : dict)
  : result dict :=
  let ratings := hp_bars hist_soup in
  let tot_ratings := 0 in
  '(film_dict, tot_ratings) <-
     (if negb (Nat.eqb (List.length ratings) 0) then
        histogram_bars 0 ratings not_found film_dict tot_ratings
      else
        film_dict <- histogram_zeros range10 not_found film_dict ;;
        Ok (film_dict, tot_ratings)) ;;
  Ok (dict_set "Total_ratings" (VInt tot_ratings) film_dict).

Definition scrape_film (get : web) (film_html : li_tag) (not_found : value)
  : result dict :=
  let film_dict : dict := [] in
  div <- of_option AttributeError (li_div_target_link film_html) ;;
  link <- of_option TypeError div ;;
  let film_card := slice_from 1 link in
  let film_url := _domain ++ film_card in
  filmget <- get film_url ;;
  let film_soup := as_film (content filmget) in
  (* Finding the film name *)
  col17 <- of_option AttributeError (fp_col17_h1 film_soup) ;;
  h1 <- of_option AttributeError col17 ;;
  let film_dict := dict_set "Film_title" (VStr h1) film_dict in
  (* Release year *)
  release_year <- release_year_of film_soup ;;
  let film_dict := dict_set "Release_year"
    (if release_year =? 0 then not_found else VInt release_year) film_dict in
  (* Director *)
  meta <- of_option AttributeError (fp_twitter_data1 film_soup) ;;
  director <- of_option KeyError meta ;;
  let director := if String.eqb director "" then not_found else VStr director in
  let film_dict := dict_set "Director" director film_dict in
  let film_dict := dict_set "Cast" (cast_of film_soup not_found) film_dict in
  let film_dict := dict_set "Average_rating" (average_rating_of film_soup not_found) film_dict in
  let film_dict := dict_set "Owner_rating" (owner_rating_of film_html not_found) film_dict in
  let film_dict := dict_set "Genres" (genres_of film_soup not_found) film_dict in
  let film_dict := dict_set "Runtime" (runtime_of film_soup not_found) film_dict in
  let film_dict := dict_set "Countries" (details_of "country" film_soup not_found) film_dict in
  let '(original, spoken) := languages_of film_soup not_found in
  let film_dict := dict_set "Original_language" original film_dict in
  let film_dict := dict_set "Spoken_languages" spoken film_dict in
  let film_dict := dict_set "Description" (description_of film_soup not_found) film_dict in
  let film_dict := dict_set "Studios" (details_of "studio" film_soup not_found) film_dict in
  (* Watches, appearances in lists and likes: the stats fragment *)
  movie <- index_m2 (split "/" film_url) ;;
  r <- get ("https://letterboxd.com/csi/film/" ++ movie ++ "/stats/") ;;
  let stats_soup := as_stats (content r) in
  watches <- count_of_title (sp_watched stats_soup) ;;
  let film_dict := dict_set "Watches" (VInt watches) film_dict in
  list_appearances <- count_of_title (sp_list stats_soup) ;;
  let film_dict := dict_set "List_appearances" (VInt list_appearances) film_dict in
  likes <- count_of_title (sp_like stats_soup) ;;
  let film_dict := dict_set "Likes" (VInt likes) film_dict in
  (* The rating histogram fragment *)
  r <- get ("https://letterboxd.com/csi/film/" ++ movie ++ "/rating-histogram/") ;;
  let hist_soup := as_hist (content r) in
  let film_dict := dict_set "Fans" (VInt (fans_of hist_soup)) film_dict in
  film_dict <- histogram hist_soup not_found film_dict ;;
  Ok (dict_set "Film_URL" (VStr film_url) film_dict).

(** *** scrape_page *)

(** The loop over the [<li>] of the list: a film whose scraping raises is
    reported and left out. *)
Fixpoint scrape_films (get : web) (films : list li_tag) (not_found : value)
    (concat : bool) (og_list_url : string) (page_films : list dict) : list dict :=
  match films with
  | [] => page_films
  | film :: rest =>
      let page_films :=
        try_except
          (film_dict <- scrape_film get film not_found ;;
           let film_dict :=
             if concat then dict_set "List_URL" (VStr og_list_url) film_dict
             else film_dict in
           Ok (page_films ++ [film_dict])%list)
          page_films in
      scrape_films get rest not_found concat og_list_url page_films
  end.

(** [a or b] on the answers of two [find]: a tag is always true. *)
Definition or_else {A} (a b : option A) : option A :=
  match a with
  | Some _ => a
  | None => b
  end.

Definition scrape_page (get : web) (list_url og_list_url : string)
    (output_file_extension list_type : string) (quiet concat : bool)
  : result (list dict * option document) :=
  let page_films : list dict := [] in
  response <- get list_url ;;
  if negb (status_code response =? 200) then Ok ([], None)
  else
    let soup := content response in
    let table :=
      or_else (lp_ul_poster_list (as_list soup))
        (or_else (lp_ul_list_entries (as_list soup))
           (lp_section_poster_list (as_list soup))) in
    match table with
    | None => Ok ([], Some soup)
    | Some films =>
        match films with
        | [] => Ok ([], Some soup)
        | _ =>
            let not_found :=
              if String.eqb output_file_extension ".csv" then VFloat nan else VNone in
            Ok (scrape_films get films not_found concat og_list_url page_films,
                Some soup)
        end
    end.

(** *** scrape_diary *)

(** The module never imports [time]: evaluating the name in
    [time.sleep(0.25)] raises [NameError]. *)
Definition time_sleep : result unit := Raise NameError.

(** The [rating] of a diary entry. *)
Definition diary_rating (rating_tag : option rating_tag) : result value :=
  match rating_tag with
  | None => Ok VNone
  | Some tag =>
      match rt_data_rating tag with
      | Some r => f <- py_float r ;; Ok (VFloat f)
      | None =>
          let rating_text := rt_text tag in
          Ok (try_except (f <- py_float rating_text ;; Ok (VFloat f))
                (VStr rating_text))
      end
  end.

(** The body of the [try] of one diary entry. *)
Definition diary_entry_dict (e : diary_entry) : result dict :=
  let date := match de_date e with Some t => t | None => "" end in
  let film_link := de_film_link e in
  let film_title := match film_link with Some (t, _) => t | None => "" end in
  let film_url :=
    match film_link with
    | Some (_, h) => "https://letterboxd.com" ++ h
    | None => ""
    end in
  let year := match de_year e with Some t => strip_chars "()" t | None => "" end in
  rating <- diary_rating (de_rating e) ;;
  let review := match de_p e with Some t => t | None => "" end in
  let director := "" in
  Ok [ ("date", VStr date); ("film_title", VStr film_title);
       ("year", VStr year); ("rating", rating); ("review", VStr review);
       ("film_url", VStr film_url); ("director", VStr director) ].

(** The loop over the entries of a page: an entry that raises is skipped. *)
Fixpoint diary_entries (entries : list diary_entry) (films : list dict) : list dict :=
  match entries with
  | [] => films
  | e :: rest =>
      diary_entries rest
        (try_except (d <- diary_entry_dict e ;; Ok (films ++ [d])%list) films)
  end.

(** The loop over [entry_selectors]: the answer of the first selector that
    selects something. *)
Fixpoint first_selected (answers : list (list diary_entry)) (entries : list diary_entry)
  : list diary_entry :=
  match answers with
  | [] => entries
  | a :: rest =>
      match a with
      | [] => first_selected rest a
      | _ => a
      end
  end.

Definition entry_selectors (soup : diary_page) : list (list diary_entry) :=
  [ dp_li_diary_entry soup; dp_div_diary_entry soup;
    dp_article_diary_entry soup; dp_li_entry soup ].

(** The page numbers asked for: nothing ([[]]), ["*"], or a list of numbers. *)
Inductive page_options : Type :=
  | Star
  | Pages (ps : list Z).

(** The loop over [pages_to_scrape]; a page is given by its [f'{page}']. *)
Fixpoint diary_pages (get : web) (base_url : string) (pages_to_scrape : list string)
    (films : list dict) : result (list dict) :=
  match pages_to_scrape with
  | [] => Ok films
  | page :: rest =>
      let page_url := rstrip_chars "/" base_url ++ "/page/" ++ page ++ "/" in
      resp <- get page_url ;;
      if negb (status_code resp =? 200) then diary_pages get base_url rest films
      else
        let soup := as_diary (content resp) in
        let entries := first_selected (entry_selectors soup) [] in
        let entries := match entries with [] => dp_articles soup | _ => entries end in
        match entries with
        | [] => diary_pages get base_url rest films
        | _ =>
            let films := diary_entries entries films in
            (* be polite *)
            _ <- time_sleep ;;
            diary_pages get base_url rest films
        end
  end.

Definition scrape_diary (get : web) (base_url : string) (page_options : page_options)
    (output_file_extension : string) (quiet concat : bool) : result (list dict) :=
  let films : list dict := [] in
  let pages_to_scrape :=
    match page_options with
    | Pages [] => ["1"]
    | Pages ps => map str_of_int ps
    | Star => ["*"]
    end in
  films <- diary_pages get base_url pages_to_scrape films ;;
  match films with
  | [] => Ok [[("note", VStr "no diary entries found")]]
  | _ => Ok films
  end.

(** *** scrape_list

    The [while True] loop of a full crawl, run for at most [fuel] pages:
    [None] when the loop is still running after [fuel] pages. *)
Fixpoint follow_next (fuel : nat) (get : web) (list_url : string)
    (output_file_extension list_type : string) (quiet concat : bool)
    (list_films : list dict) : option (result (list dict)) :=
  match fuel with
  | O => None
  | S fuel' =>
      match scrape_page get list_url list_url output_file_extension list_type
              quiet concat with
      | Raise e => Some (Raise e)
      | Ok (page_films, page_soup) =>
          let list_films := (list_films ++ page_films)%list in
          (* Check if there is another page *)
          match page_soup with
          | None => Some (Raise AttributeError)
          | Some soup =>
              match lp_next (as_list soup) with
              | None => Some (Ok list_films)
              | Some None => Some (Raise KeyError)
              | Some (Some href) =>
                  follow_next fuel' get (_domain ++ href) output_file_extension
                    list_type quiet concat list_films
              end
          end
      end
  end.

(** The loop over the selected pages. *)
Fixpoint selected_pages (get : web) (list_url : string) (page_options : list Z)
    (output_file_extension list_type : string) (quiet concat : bool)
    (list_films : list dict) : list dict :=
  match page_options with
  | [] => list_films
  | p :: rest =>
      let new_link := list_url ++ "page/" ++ str_of_int p ++ "/" in
      let list_films :=
        try_except
          ('(page_films, page_soup) <-
             scrape_page get new_link list_url output_file_extension list_type
               quiet concat ;;
           Ok (list_films ++ page_films)%list)
          list_films in
      selected_pages get list_url rest output_file_extension list_type quiet
        concat list_films
  end.

(** The list of records [scrape_list] returns; writing them to the CSV file
    is the work of the sink. *)
Definition scrape_list (fuel : nat) (get : web) (list_url : string)
    (page_options : page_options) (output_file_extension list_type : string)
    (quiet concat : bool) : option (result (list dict)) :=
  let list_films : list dict := [] in
  if String.eqb list_type "diary" then
    Some (scrape_diary get list_url page_options output_file_extension quiet concat)
  else
    match page_options with
    | Pages [] | Star =>
        follow_next fuel get list_url output_file_extension list_type quiet
          concat list_films
    | Pages ps =>
        Some (Ok (selected_pages get list_url ps output_file_extension list_type
                    quiet concat list_films))
    end.

End Scrape.

(** ** letterboxdpy/diary.py: the normalization of the diary entries *)

Module Diary.

(** The data [Diary.entries] can hold: JSON-like values, with string keys
    in the mappings in the order of insertion. *)
Inductive pyval : Type :=
  | PNone
  | PBool (b : bool)
  | PInt (n : Z)
  | PStr (s : string)
  | PList (l : list pyval)
  | PDict (d : list (string * pyval)).

Definition pydict := list (string * pyval).

(** [isinstance(v, dict)], [isinstance(v, list)]. *)
Definition is_dict (v : pyval) : bool :=
  match v with PDict _ => true | _ => false end.
Definition is_list (v : pyval) : bool :=
  match v with PList _ => true | _ => false end.

(** [bool(v)]. *)
Definition truthy (v : pyval) : bool :=
  match v with
  | PNone => false
  | PBool b => b
  | PInt n => negb (n =? 0)
  | PStr s => negb (String.eqb s "")
  | PList l => match l with [] => false | _ => true end
  | PDict d => match d with [] => false | _ => true end
  end.

Fixpoint lookup (k : string) (d : pydict) : option pyval :=
  match d with
  | [] => None
  | (k', v) :: d' => if String.eqb k k' then Some v else lookup k d'
  end.

(** [d.get(k, default)], [d.values()]. *)
Definition get (k : string) (default : pyval) (d : pydict) : pyval :=
  match lookup k d with
  | Some v => v
  | None => default
  end.
Definition values (d : pydict) : list pyval := map snd d.

(** The elements of a value that is a list. *)
Definition items (v : pyval) : list pyval :=
  match v with PList l => l | _ => [] end.

(** A cell of the CSV row: a text, or the [str] of a list or a mapping,
    which is not spelled out. *)
Inductive cell : Type :=
  | Text (s : string)
  | StrOf (v : pyval).

Definition row := list (string * cell).

(** The ``Normalize structure'' step, with the filter that keeps the
    mappings. *)
Definition normalize (entries : pyval) : list pyval :=
  let entries_list :=
    match entries with
    | PDict d =>
        (* Case 1: {'entries': {id: entry, ...}, 'count': N, ...} *)
        match lookup "entries" d with
        | Some (PDict sub) => values sub
        | _ =>
            (* Case 2: dict of entries keyed by id *)
            if forallb is_dict (values d) then values d
            else
              (* fallback: look for lists inside values *)
              let possible_lists := filter is_list (values d) in
              match possible_lists with
              | [] => []
              | _ => List.concat (map items possible_lists)
              end
        end
    | PList l => l
    | _ => []
    end in
  filter is_dict entries_list.

Definition fieldnames : list string :=
  [ "name"; "slug"; "id"; "release"; "runtime"; "rewatched"; "rating";
    "liked"; "reviewed"; "date" ].

(** [int(v)]. *)
Definition int_of (v : pyval) : result Z :=
  match v with
  | PInt n => Ok n
  | PBool b => Ok (if b then 1 else 0)
  | PStr s => py_int s
  | _ => Raise TypeError
  end.

(** [f"{n:0wd}"]: the sign, then zeros up to the width [w]. *)
Definition format_0d (w : nat) (n : Z) : string :=
  let ds := str_of_int (Z.abs n) in
  let sign := if n <? 0 then "-" else "" in
  let pad := (w - String.length sign - String.length ds)%nat in
  sign ++ str_of (repeat "0"%char pad) ++ ds.

(** [v or '']. *)
Definition or_empty (v : pyval) : pyval :=
  if truthy v then v else PStr "".

(** The pass that makes every value a scalar for the CSV. *)
Definition scalar (v : pyval) : cell :=
  match v with
  | PBool b => Text (if b then "1" else "0")
  | PNone => Text ""
  | PStr s => Text s
  | PInt n => Text (str_of_int n)
  | PList _ | PDict _ => StrOf v
  end.

(** [k in date_obj and date_obj[k] is not None]. *)
Definition present (k : string) (date_obj : pydict) : bool :=
  match lookup k date_obj with
  | Some PNone | None => false
  | Some _ => true
  end.

(** The text of the date: YYYY-MM-DD if possible. *)
Definition date_str (date_obj : pydict) : cell :=
  if truthy (PDict date_obj)
     && forallb (fun k => present k date_obj) ["year"; "month"; "day"]
  then
    try_except
      (y <- int_of (get "year" PNone date_obj) ;;
       m <- int_of (get "month" PNone date_obj) ;;
       d <- int_of (get "day" PNone date_obj) ;;
       Ok (Text (format_0d 4 y ++ "-" ++ format_0d 2 m ++ "-" ++ format_0d 2 d)))
      (StrOf (PDict date_obj))
  else if truthy (PDict date_obj) then StrOf (PDict date_obj) else Text "".

(** [entry.get(k, {}) if isinstance(entry.get(k, {}), dict) else {}]. *)
Definition sub_dict (k : string) (entry : pydict) : pydict :=
  match get k (PDict []) entry with
  | PDict d => d
  | _ => []
  end.

(** The row of one entry, after the scalar pass; [date_str] is a [str]
    already, which the pass leaves as it is. *)
Definition row_of (entry : pydict) : row :=
  let actions := sub_dict "actions" entry in
  let date_obj := sub_dict "date" entry in
  [ ("name", scalar (or_empty (get "name" (PStr "") entry)));
    ("slug", scalar (or_empty (get "slug" (PStr "") entry)));
    ("id", scalar (or_empty (get "id" (PStr "") entry)));
    ("release", scalar (or_empty (get "release" (PStr "") entry)));
    ("runtime", scalar (or_empty (get "runtime" (PStr "") entry)));
    ("rewatched", scalar (get "rewatched" (PStr "") actions));
    ("rating", scalar (get "rating" (PStr "") actions));
    ("liked", scalar (get "liked" (PStr "") actions));
    ("reviewed", scalar (get "reviewed" (PStr "") actions));
    ("date", date_str date_obj) ].

(** The rows written for the entries of [normalize]. *)
Definition rows_of (entries_list : list pyval) : list row :=
  map (fun e => match e with PDict d => row_of d | _ => row_of [] end) entries_list.

(** What is saved: nothing when [entries] is false, otherwise the header
    and one row per normalized entry. *)
Definition save_diary (entries : pyval) : option (list string * list row) :=
  if truthy entries then Some (fieldnames, rows_of (normalize entries))
  else None.

(** The shapes the normalization knows. *)
Definition recognized (entries : pyval) : bool :=
  match entries with
  | PDict d =>
      match lookup "entries" d with
      | Some (PDict _) => true
      | _ => forallb is_dict (values d) || existsb is_list (values d)
      end
  | PList _ => true
  | _ => false
  end.

End Diary.

Import Scrape.

(** ** The notions the properties are stated with *)

Module Props.

(** *** The histogram of a record *)

(** The keys of the 10 buckets of the rating histogram. *)
Definition bucket_keys : list string := map snd rating_scale.

(** The count a record stores under a key; a key that is not there counts
    for nothing. *)
Definition count_at (film_dict : dict) (k : string) : Z :=
  match dict_get k film_dict with
  | Some (VInt n) => n
  | _ => 0
  end.

Definition bucket_sum (film_dict : dict) : Z :=
  fold_right Z.add 0 (map (count_at film_dict) bucket_keys).

(** *** The resources [scrape_film] fetches for an item *)

Definition film_url_of (film_html : li_tag) : result string :=
  div <- of_option AttributeError (li_div_target_link film_html) ;;
  link <- of_option TypeError div ;;
  Ok (_domain ++ slice_from 1 link).

Definition stats_url (film_url : string) : result string :=
  movie <- index_m2 (split "/" film_url) ;;
  Ok ("https://letterboxd.com/csi/film/" ++ movie ++ "/stats/").

Definition histogram_url (film_url : string) : result string :=
  movie <- index_m2 (split "/" film_url) ;;
  Ok ("https://letterboxd.com/csi/film/" ++ movie ++ "/rating-histogram/").

(** The film page, the stats fragment and the histogram fragment of an item. *)
Definition film_page_of (get : web) (film_html : li_tag) : result film_page :=
  film_url <- film_url_of film_html ;;
  r <- get film_url ;;
  Ok (as_film (content r)).

Definition stats_response_of (get : web) (film_html : li_tag) : result response :=
  film_url <- film_url_of film_html ;;
  url <- stats_url film_url ;;
  get url.

Definition histogram_response_of (get : web) (film_html : li_tag) : result response :=
  film_url <- film_url_of film_html ;;
  url <- histogram_url film_url ;;
  get url.

(** *** The two number parsers of [scrape_film], on a text *)

(** The parser of the Fans field. *)
Definition parse_fans (text : string) : Z :=
  fans_of {| hp_all_link := Some text; hp_bars := [] |}.

(** The parser of the Watches, List_appearances and Likes fields. *)
Definition parse_count (text : string) : result Z :=
  count_of_title (Some (Some text)).

Definition no_digit (text : string) : Prop :=
  forall c, In c (chars_of text) -> is_digit c = false.

(** *** The chain of pages of a full crawl *)

(** What one turn of the [while True] loop finds at [list_url]. *)
Inductive turn : Type :=
  | Last (page_films : list dict)
  | Next (page_films : list dict) (next_url : string)
  | Fails (e : exn).

Definition turn_at (get : web) (list_url output_file_extension list_type : string)
    (quiet concat : bool) : turn :=
  match scrape_page get list_url list_url output_file_extension list_type
          quiet concat with
  | Raise e => Fails e
  | Ok (_, None) => Fails AttributeError
  | Ok (page_films, Some soup) =>
      match lp_next (as_list soup) with
      | None => Last page_films
      | Some None => Fails KeyError
      | Some (Some href) => Next page_films (_domain ++ href)
      end
  end.

(** The URL the loop is at after [k] turns that each found a next page. *)
Fixpoint url_after (k : nat) (get : web) (list_url output_file_extension list_type : string)
    (quiet concat : bool) : option string :=
  match k with
  | O => Some list_url
  | S k' =>
      match turn_at get list_url output_file_extension list_type quiet concat with
      | Next _ u => url_after k' get u output_file_extension list_type quiet concat
      | _ => None
      end
  end.

(** The loop is over at its turn number [k]: the page it is at has no next
    page, or the turn raises. *)
Definition ends_at (k : nat) (get : web) (list_url output_file_extension list_type : string)
    (quiet concat : bool) : Prop :=
  exists u, url_after k get list_url output_file_extension list_type quiet concat = Some u
  /\ match turn_at get u output_file_extension list_type quiet concat with
     | Next _ _ => False
     | _ => True
     end.

(** *** The pages of a diary *)

Definition diary_page_url (base_url page : string) : string :=
  rstrip_chars "/" base_url ++ "/page/" ++ page ++ "/".

(** The entries [scrape_diary] finds on a page that answers. *)
Definition entries_of (resp : response) : list diary_entry :=
  if negb (status_code resp =? 200) then []
  else
    let soup := as_diary (content resp) in
    match first_selected (entry_selectors soup) [] with
    | [] => dp_articles soup
    | entries => entries
    end.

(** The keys of a diary record, and the record returned for an empty diary. *)
Definition diary_keys : list string :=
  [ "date"; "film_title"; "year"; "rating"; "review"; "film_url"; "director" ].

Definition note_record : dict := [("note", VStr "no diary entries found")].

(** *** A small site *)

Definition ok_response (d : document) : response :=
  {| status_code := 200; content := d |}.
Definition not_found_response : response :=
  {| status_code := 404; content := empty_document |}.

Definition film_document (p : film_page) : document :=
  {| as_list := no_list; as_film := p; as_stats := no_stats;
     as_hist := no_hist; as_diary := no_diary |}.
Definition stats_document (p : stats_page) : document :=
  {| as_list := no_list; as_film := no_film; as_stats := p;
     as_hist := no_hist; as_diary := no_diary |}.
Definition hist_document (p : hist_page) : document :=
  {| as_list := no_list; as_film := no_film; as_stats := no_stats;
     as_hist := p; as_diary := no_diary |}.
Definition list_document (p : list_page) : document :=
  {| as_list := p; as_film := no_film; as_stats := no_stats;
     as_hist := no_hist; as_diary := no_diary |}.
Definition diary_document (p : diary_page) : document :=
  {| as_list := no_list; as_film := no_film; as_stats := no_stats;
     as_hist := no_hist; as_diary := p |}.

(** A site given by the list of its pages; any other URL answers 404. *)
Fixpoint site (pages : list (string * response)) : web :=
  fun url =>
    match pages with
    | [] => Ok not_found_response
    | (u, r) :: rest => if String.eqb url u then Ok r else site rest url
    end.

Definition parasite_li : li_tag :=
  {| li_div_target_link := Some (Some "/film/parasite-2019/");
     li_data_owner_rating := Some "9";
     li_spans := [] |}.

Definition parasite_page : film_page :=
  {| fp_col17_h1 := Some (Some "Parasite");
     fp_releaseyear := [Some "2019"; Some " 2019 "];
     fp_twitter_data1 := Some (Some "Bong Joon Ho");
     fp_tab_cast := Some [Some "Song Kang-ho"; Some "Choi Woo-shik"; Some "Show All…"];
     fp_twitter_data2 := Some (Some "4.54 out of 5");
     fp_genres := Some ["Comedy"; "Thriller"; "Drama"];
     fp_footer := Some "133 mins More at IMDb TMDB";
     fp_tab_details :=
       Some [ {| a_href := "/films/country/south-korea/"; a_contents0 := Some "South Korea" |};
              {| a_href := "/films/language/korean/"; a_contents0 := Some "Korean" |};
              {| a_href := "/films/language/korean/"; a_contents0 := Some "Korean" |};
              {| a_href := "/studio/barunson-ea/"; a_contents0 := Some "Barunson E&A" |} ];
     fp_description := Some (Some "All unemployed, Ki-taek's family takes an interest in the Parks.") |}.

Definition parasite_stats : stats_page :=
  {| sp_watched := Some (Some "Watched by 3,482 members");
     sp_list := Some (Some "Appears in 1,234 lists");
     sp_like := Some (Some "Liked by 2,345 members") |}.

(** Bars with the counts 1, 0, 2, 0, 3, 0, 4, 0, 5, 0. *)
Definition parasite_hist : hist_page :=
  {| hp_all_link := Some "1.2K fans";
     hp_bars := [ "1 half-star ratings (7%)"; ""; "2 one-and-a-half star ratings (13%)"; "";
                  "3 ratings (20%)"; " "; "4 ratings (27%)"; "";
                  "5 ratings (33%)"; "" ] |}.

Definition parasite_url : string := "https://letterboxd.com/film/parasite-2019/".
Definition parasite_stats_url : string :=
  "https://letterboxd.com/csi/film/parasite-2019/stats/".
Definition parasite_hist_url : string :=
  "https://letterboxd.com/csi/film/parasite-2019/rating-histogram/".

(** The site of the film, with the given answers for its three resources. *)
Definition film_site (film stats hist : response) : web :=
  site [ (parasite_url, film); (parasite_stats_url, stats); (parasite_hist_url, hist) ].

Definition parasite_site : web :=
  film_site (ok_response (film_document parasite_page))
    (ok_response (stats_document parasite_stats))
    (ok_response (hist_document parasite_hist)).

(** The film page without the [twitter:data1] meta. *)
Definition no_director_page : film_page :=
  {| fp_col17_h1 := fp_col17_h1 parasite_page;
     fp_releaseyear := fp_releaseyear parasite_page;
     fp_twitter_data1 := None;
     fp_tab_cast := fp_tab_cast parasite_page;
     fp_twitter_data2 := fp_twitter_data2 parasite_page;
     fp_genres := fp_genres parasite_page;
     fp_footer := fp_footer parasite_page;
     fp_tab_details := fp_tab_details parasite_page;
     fp_description := fp_description parasite_page |}.

Definition no_director_site : web :=
  film_site (ok_response (film_document no_director_page))
    (ok_response (stats_document parasite_stats))
    (ok_response (hist_document parasite_hist)).

(** The stats fragment answers 404. *)
Definition no_stats_site : web :=
  film_site (ok_response (film_document parasite_page))
    not_found_response
    (ok_response (hist_document parasite_hist)).

(** The histogram fragment answers 404. *)
Definition no_hist_site : web :=
  film_site (ok_response (film_document parasite_page))
    (ok_response (stats_document parasite_stats))
    not_found_response.

(** A list of three pages whose third page names the second as its next. *)
Definition list_url_1 : string := "https://letterboxd.com/user/list/best/".
Definition list_url_2 : string := "https://letterboxd.com/user/list/best/page/2/".
Definition list_url_3 : string := "https://letterboxd.com/user/list/best/page/3/".

Definition linked_page (next : option string) : response :=
  ok_response (list_document
    {| lp_ul_poster_list := None; lp_ul_list_entries := None;
       lp_section_poster_list := None; lp_next := Some next |}).

Definition looping_site : web :=
  site [ (list_url_1, linked_page (Some "user/list/best/page/2/"));
         (list_url_2, linked_page (Some "user/list/best/page/3/"));
         (list_url_3, linked_page (Some "user/list/best/page/2/")) ].

(** A list whose page 2 holds the film and whose page 5 cannot be fetched. *)
Definition film_list_page : response :=
  ok_response (list_document
    {| lp_ul_poster_list := Some [parasite_li]; lp_ul_list_entries := None;
       lp_section_poster_list := None; lp_next := None |}).

Definition two_page_site : web :=
  site [ (list_url_2, film_list_page);
         (parasite_url, ok_response (film_document parasite_page));
         (parasite_stats_url, ok_response (stats_document parasite_stats));
         (parasite_hist_url, ok_response (hist_document parasite_hist)) ].

(** A diary whose first page holds one entry. *)
Definition diary_url : string := "https://letterboxd.com/user/films/diary/".

Definition one_entry : diary_entry :=
  {| de_date := Some "12 Oct 2025";
     de_film_link := Some ("Parasite", "/film/parasite-2019/");
     de_year := Some "(2019)";
     de_rating := Some {| rt_data_rating := Some "9"; rt_text := "" |};
     de_p := Some "Great." |}.

Definition diary_site : web :=
  site [ ("https://letterboxd.com/user/films/diary/page/1/",
          ok_response (diary_document
            {| dp_li_diary_entry := [one_entry]; dp_div_diary_entry := [];
               dp_article_diary_entry := []; dp_li_entry := []; dp_articles := [] |})) ].

(** A raw diary of two entries. *)
Definition entries_a_b : Diary.pydict :=
  [ ("a", Diary.PDict
            [ ("name", Diary.PStr "Parasite");
              ("date", Diary.PDict [ ("year", Diary.PInt 2025);
                                     ("month", Diary.PInt 3);
                                     ("day", Diary.PStr "9") ]);
              ("actions", Diary.PDict [ ("liked", Diary.PBool true);
                                        ("rating", Diary.PInt 9) ]) ]);
    ("b", Diary.PDict [ ("name", Diary.PStr "Heat") ]) ].

Definition raw_diary : Diary.pyval :=
  Diary.PDict [ ("entries", Diary.PDict entries_a_b); ("count", Diary.PInt 2) ].

End Props.

Import Props.

(** ** letterboxdpy/diary.py: the [Diary] object and the command line *)

Module DiaryMain.

Import Diary.

(** A [Diary] object, without its pages, and the number of calls made to
    [get_diary] so far. *)
Record diary := {
  username : string;
  _entries : pyval;
  fetches : nat
}.

(** [Diary(username)] after its assertion: nothing is fetched yet. *)
Definition new_diary (user : string) : diary :=
  {| username := user; _entries := PNone; fetches := 0 |}.

(** The [entries] property: [get_diary] is called when [_entries] is
    [None], and its answer kept; [get_diary n] is the answer to the call
    number [n]. *)
Definition entries (get_diary : nat -> pyval) (self : diary) : pyval * diary :=
  match _entries self with
  | PNone =>
      let v := get_diary (fetches self) in
      (v, {| username := username self; _entries := v;
             fetches := S (fetches self) |})
  | v => (v, self)
  end.

(** [v.values()]: only a mapping has it. *)
Definition values_of (v : pyval) : result (list pyval) :=
  match v with
  | PDict d => Ok (values d)
  | _ => Raise AttributeError
  end.

(** [vals[0] if vals else None]. *)
Definition first_or_none (vals : list pyval) : pyval :=
  match vals with
  | v :: _ => v
  | [] => PNone
  end.

(** The sample entry printed with [--debug]. *)
Definition debug_sample (entries : pyval) : result pyval :=
  match entries with
  | PDict d =>
      match lookup "entries" d with
      | Some sub => vals <- values_of sub ;; Ok (first_or_none vals)
      | None => Ok (first_or_none (filter is_dict (values d)))
      end
  | PList l => Ok (first_or_none l)
  | _ => Ok PNone
  end.

(** How the command ends. *)
Inductive outcome : Type :=
  | Saved (header : list string) (rows : list row)
  | NoEntries
  | Failed (e : exn).

(** The body of the [try] of the command, for a diary that can be fetched:
    the debug sample, then the file. *)
Definition main (debug : bool) (get_diary : nat -> pyval) (user : string)
  : outcome :=
  let diary_instance := new_diary user in
  let '(entries1, diary_instance) := entries get_diary diary_instance in
  match (if debug then debug_sample entries1 else Ok PNone) with
  | Raise e => Failed e
  | Ok _ =>
      let '(entries2, diary_instance) := entries get_diary diary_instance in
      match save_diary entries2 with
      | Some (header, rows) => Saved header rows
      | None => NoEntries
      end
  end.

End DiaryMain.

(** ** More notions for the properties *)

Module Notions.

(** The digits of a text, in order. *)
Definition digits_of (text : string) : chars := filter is_digit (chars_of text).

Definition has_digit (text : string) : bool := existsb is_digit (chars_of text).

(** The count a histogram bar gives. *)
Definition bar_count (r : string) : result Z :=
  if String.eqb (strip_chars " " r) "" then Ok 0
  else py_int (join (removelast (findall_digits (strip_chars " " r)))).

(** The keys of a record before its histogram. *)
Definition head_keys : list string :=
  [ "Film_title"; "Release_year"; "Director"; "Cast"; "Average_rating";
    "Owner_rating"; "Genres"; "Runtime"; "Countries"; "Original_language";
    "Spoken_languages"; "Description"; "Studios"; "Watches";
    "List_appearances"; "Likes"; "Fans" ].

(** The number of buckets a record gets for a histogram of [n] bars. *)
Definition bucket_count (n : nat) : nat :=
  match n with
  | O => 10%nat
  | _ => n
  end.

(** The record [scrape_page] keeps for one item: none when its scraping
    raises. *)
Definition kept_record (get : web) (not_found : value) (concat : bool)
    (og_list_url : string) (film : li_tag) : list dict :=
  match scrape_film get film not_found with
  | Ok film_dict =>
      [ if concat then dict_set "List_URL" (VStr og_list_url) film_dict
        else film_dict ]
  | Raise _ => []
  end.

(** The sentinel of an output format. *)
Definition sentinel_of (output_file_extension : string) : value :=
  if String.eqb output_file_extension ".csv" then VFloat nan else VNone.

(** The items of a list page: the [<li>] of the first table found. *)
Definition page_items (soup : document) : list li_tag :=
  match or_else (lp_ul_poster_list (as_list soup))
          (or_else (lp_ul_list_entries (as_list soup))
             (lp_section_poster_list (as_list soup))) with
  | Some films => films
  | None => []
  end.


(** The films of the first [k] pages of a chain of next pages. *)
Fixpoint chain_films (k : nat) (get : web) (list_url output_file_extension list_type : string)
    (quiet concat : bool) : list dict :=
  match k with
  | O => []
  | S k' =>
      match turn_at get list_url output_file_extension list_type quiet concat with
      | Next page_films u =>
          (page_films ++ chain_films k' get u output_file_extension list_type
                           quiet concat)%list
      | _ => []
      end
  end.

(** The record of a diary entry: none when reading it raises. *)
Definition entry_record (e : diary_entry) : list dict :=
  match diary_entry_dict e with
  | Ok d => [d]
  | Raise _ => []
  end.

(** The [data-rating] of an entry is there and is not the text of a float. *)
Definition bad_data_rating (e : diary_entry) : bool :=
  match de_rating e with
  | Some tag =>
      match rt_data_rating tag with
      | Some r => negb (is_ok (py_float r))
      | None => false
      end
  | None => false
  end.

(** The mapping of a date. *)
Definition date_of (y m d : Z) : Diary.pydict :=
  [ ("year", Diary.PInt y); ("month", Diary.PInt m); ("day", Diary.PInt d) ].

(** The numbers from [0] to [n - 1]. *)
Definition upto (n : nat) : list Z := map Z.of_nat (seq 0 n).

(** [format_0d w] writes [n] on exactly [w] characters that read back as [n]. *)
Definition reads_back (w : nat) (n : Z) : bool :=
  let s := Diary.format_0d w n in
  Nat.eqb (String.length s) w
  && match py_int s with Ok n' => n' =? n | Raise _ => false end.

(** The fields of a record before its histogram, for a film page that has
    its [title], the [release_year] read, its [director] and the three
    counts of the stats fragment. *)
Definition head_fields (film_html : li_tag) (film_soup : film_page)
    (not_found : value) (title : string) (release_year : Z) (director : string)
    (watches list_appearances likes fans : Z) : dict :=
  [ ("Film_title", VStr title);
    ("Release_year", if release_year =? 0 then not_found else VInt release_year);
    ("Director", if String.eqb director "" then not_found else VStr director);
    ("Cast", cast_of film_soup not_found);
    ("Average_rating", average_rating_of film_soup not_found);
    ("Owner_rating", owner_rating_of film_html not_found);
    ("Genres", genres_of film_soup not_found);
    ("Runtime", runtime_of film_soup not_found);
    ("Countries", details_of "country" film_soup not_found);
    ("Original_language", fst (languages_of film_soup not_found));
    ("Spoken_languages", snd (languages_of film_soup not_found));
    ("Description", description_of film_soup not_found);
    ("Studios", details_of "studio" film_soup not_found);
    ("Watches", VInt watches);
    ("List_appearances", VInt list_appearances);
    ("Likes", VInt likes);
    ("Fans", VInt fans) ].

(** The bucket fields for the counts of the bars, in the order of the
    rating scale. *)
Definition bucket_fields (counts : list Z) : dict :=
  combine bucket_keys (map VInt counts).

Definition sum (counts : list Z) : Z := fold_right Z.add 0 counts.

(** The counts of the buckets of a histogram: those of its bars, or ten
    zeros when it has no bar. *)
Definition bucket_counts (counts : list Z) : list Z :=
  match counts with
  | [] => repeat 0 10
  | _ => counts
  end.

(** A list of two pages, the film on the second. *)
Definition chained_site : web :=
  site [ (list_url_1, linked_page (Some "user/list/best/page/2/"));
         (list_url_2, film_list_page);
         (parasite_url, ok_response (film_document parasite_page));
         (parasite_stats_url, ok_response (stats_document parasite_stats));
         (parasite_hist_url, ok_response (hist_document parasite_hist)) ].

(** The cell of a column in a row. *)
Fixpoint cell_at (k : string) (r : Diary.row) : option Diary.cell :=
  match r with
  | [] => None
  | (k', c) :: r' => if String.eqb k k' then Some c else cell_at k r'
  end.

(** A float that is not below zero: its sign bit is clear, or it is not a
    number. *)
Definition nonneg_float (f : float) : bool :=
  match f with
  | S754_zero s | S754_infinity s | S754_finite s _ _ => negb s
  | S754_nan => true
  end.

End Notions.

Import Notions.

(** * Properties *)

(** ** Dictionaries *)

Lemma dict_get_set (k k' : string) (v : value) (d : dict) :
  dict_get k (dict_set k' v d) = if String.eqb k k' then Some v else dict_get k d.
Proof.
  induction d as [|[k0 v0] d IH]; simpl.
  - reflexivity.
  - destruct (String.eqb k' k0) eqn:E; simpl.
    + apply String.eqb_eq in E; subst k0.
      destruct (String.eqb k k'); reflexivity.
    + destruct (String.eqb k k0) eqn:E0.
      * apply String.eqb_eq in E0; subst k0.
        rewrite String.eqb_sym, E. reflexivity.
      * exact IH.
Qed.

Lemma dict_get_set_other (k k' : string) (v : value) (d : dict) :
  String.eqb k k' = false -> dict_get k (dict_set k' v d) = dict_get k d.
Proof. intros E. rewrite dict_get_set, E. reflexivity. Qed.

Lemma dict_get_set_same (k : string) (v : value) (d : dict) :
  dict_get k (dict_set k v d) = Some v.
Proof. rewrite dict_get_set, String.eqb_refl. reflexivity. Qed.

Lemma count_at_set (k s : string) (n : Z) (d : dict) :
  count_at (dict_set s (VInt n) d) k = if String.eqb k s then n else count_at d k.
Proof.
  unfold count_at. rewrite dict_get_set.
  destruct (String.eqb k s); reflexivity.
Qed.

Lemma count_at_set_other (k s : string) (v : value) (d : dict) :
  String.eqb k s = false -> count_at (dict_set s v d) k = count_at d k.
Proof. intros E. unfold count_at. rewrite dict_get_set_other by exact E. reflexivity. Qed.

(** Setting a key outside [ks] leaves the sum over [ks] as it is. *)
Lemma sum_set_other (ks : list string) (s : string) (v : value) (d : dict) :
  ~ In s ks ->
  fold_right Z.add 0 (map (count_at (dict_set s v d)) ks)
  = fold_right Z.add 0 (map (count_at d) ks).
Proof.
  induction ks as [|k ks IH]; simpl; intros Hs.
  - reflexivity.
  - rewrite IH by tauto.
    rewrite count_at_set_other; [reflexivity|].
    apply String.eqb_neq. intros ->. tauto.
Qed.

(** Setting a fresh key of [ks] adds its count to the sum over [ks]. *)
Lemma sum_set_fresh (ks : list string) (s : string) (n : Z) (d : dict) :
  NoDup ks -> In s ks -> count_at d s = 0 ->
  fold_right Z.add 0 (map (count_at (dict_set s (VInt n) d)) ks)
  = fold_right Z.add 0 (map (count_at d) ks) + n.
Proof.
  induction ks as [|k ks IH]; simpl; intros Hnd Hin H0.
  - contradiction.
  - inversion Hnd as [|? ? Hk Hnd']; subst.
    rewrite count_at_set.
    destruct (String.eqb k s) eqn:E.
    + apply String.eqb_eq in E; subst k.
      rewrite sum_set_other by exact Hk. lia.
    + destruct Hin as [->|Hin]; [rewrite String.eqb_refl in E; discriminate|].
      rewrite IH by assumption. lia.
Qed.

(** ** The rating scale *)

Lemma bucket_keys_NoDup : NoDup bucket_keys.
Proof.
  unfold bucket_keys; simpl.
  repeat (constructor; [simpl; intuition discriminate|]).
  constructor.
Qed.

(** The key of the bucket number [i]. *)
Lemma truediv_index (i : nat) :
  (i < 10)%nat ->
  int_truediv (Z.of_nat i + 1) 2 = Ok (increment (Pos.of_succ_nat i)).
Proof.
  intros H.
  do 10 (destruct i as [|i]; [vm_compute; reflexivity|]).
  lia.
Qed.

Lemma val2stars_index (i : nat) (not_found : value) :
  (i < 10)%nat ->
  val2stars (increment (Pos.of_succ_nat i)) not_found = Ok (nth i bucket_keys "").
Proof.
  intros H.
  do 10 (destruct i as [|i]; [vm_compute; reflexivity|]).
  lia.
Qed.

Lemma val2stars_eleven (not_found : value) :
  bind (int_truediv (Z.of_nat 10 + 1) 2) (fun val => val2stars val not_found)
  = Raise InvalidRating.
Proof. vm_compute. reflexivity. Qed.

Lemma bucket_key_neq (i j : nat) :
  (i < 10)%nat -> (j < 10)%nat -> i <> j ->
  String.eqb (nth j bucket_keys "") (nth i bucket_keys "") = false.
Proof.
  intros Hi Hj Hne. apply String.eqb_neq. intros E.
  apply Hne. symmetry.
  apply (proj1 (NoDup_nth bucket_keys "") bucket_keys_NoDup); assumption.
Qed.

(** ** The histogram of [scrape_film] *)

Lemma histogram_bars_cons (i : Z) (r : string) (rest : list string)
    (not_found : value) (d : dict) (tot : Z) :
  histogram_bars i (r :: rest) not_found d tot
  = bind (int_truediv (i + 1) 2) (fun val =>
    bind (val2stars val not_found) (fun stars =>
      if String.eqb (strip_chars " " r) "" then
        histogram_bars (i + 1) rest not_found (dict_set stars (VInt 0) d) tot
      else
        bind (py_int (join (removelast (findall_digits (strip_chars " " r)))))
          (fun Nratings =>
             histogram_bars (i + 1) rest not_found
               (dict_set stars (VInt Nratings) d) (tot + Nratings)))).
Proof. reflexivity. Qed.

(** The loop over the bars adds to the buckets what it adds to the total,
    and touches no other key. *)
Lemma histogram_bars_sum (ratings : list string) :
  forall (i : nat) (not_found : value) (d d' : dict) (tot tot' : Z),
    (i <= 10)%nat ->
    (forall j, (i <= j < 10)%nat -> dict_get (nth j bucket_keys "") d = None) ->
    histogram_bars (Z.of_nat i) ratings not_found d tot = Ok (d', tot') ->
    bucket_sum d' = bucket_sum d + (tot' - tot)
    /\ (forall k, ~ In k bucket_keys -> dict_get k d' = dict_get k d).
Proof.
  induction ratings as [|r rest IH]; intros i nf d d' tot tot' Hi Hfresh Hrun.
  - simpl in Hrun. injection Hrun as <- <-. split; [lia | reflexivity].
  - rewrite histogram_bars_cons in Hrun.
    destruct (Nat.eq_dec i 10) as [->|Hne].
    + pose proof (val2stars_eleven nf) as E.
      unfold bind in E, Hrun.
      destruct (int_truediv (Z.of_nat 10 + 1) 2); [|discriminate].
      rewrite E in Hrun. discriminate.
    + assert (Hlt : (i < 10)%nat) by lia.
      rewrite (truediv_index i Hlt) in Hrun. cbn [bind] in Hrun.
      rewrite (val2stars_index i nf Hlt) in Hrun. cbn [bind] in Hrun.
      replace (Z.of_nat i + 1) with (Z.of_nat (S i)) in Hrun by lia.
      set (key := nth i bucket_keys "") in *.
      assert (Hkey : In key bucket_keys)
        by (apply nth_In; exact Hlt).
      assert (Hzero : count_at d key = 0)
        by (unfold count_at, key; rewrite (Hfresh i) by lia; reflexivity).
      assert (Hnext : forall n j, (S i <= j < 10)%nat ->
                dict_get (nth j bucket_keys "") (dict_set key (VInt n) d) = None).
      { intros n j Hj. rewrite dict_get_set_other.
        - apply Hfresh; lia.
        - apply bucket_key_neq; lia. }
      assert (Hother : forall n k, ~ In k bucket_keys ->
                dict_get k (dict_set key (VInt n) d) = dict_get k d).
      { intros n k Hk. apply dict_get_set_other.
        apply String.eqb_neq. intros ->. exact (Hk Hkey). }
      assert (Hsum : forall n, bucket_sum (dict_set key (VInt n) d) = bucket_sum d + n).
      { intros n. apply sum_set_fresh; [exact bucket_keys_NoDup | exact Hkey | exact Hzero]. }
      destruct (String.eqb (strip_chars " " r) "").
      * destruct (IH (S i) nf _ d' tot tot' ltac:(lia) (Hnext 0) Hrun) as [Hs Hk].
        split.
        -- rewrite Hs, Hsum. lia.
        -- intros k Hnk. rewrite Hk by exact Hnk. apply Hother; exact Hnk.
      * destruct (py_int (join (removelast (findall_digits (strip_chars " " r)))))
          as [n|e]; cbn [bind] in Hrun; [|discriminate].
        destruct (IH (S i) nf _ d' (tot + n) tot' ltac:(lia) (Hnext n) Hrun) as [Hs Hk].
        split.
        -- rewrite Hs, Hsum. lia.
        -- intros k Hnk. rewrite Hk by exact Hnk. apply Hother; exact Hnk.
Qed.

(** A film without bars gets a zero in each of the 10 buckets. *)
Lemma histogram_zeros_eq (not_found : value) (d : dict) :
  histogram_zeros range10 not_found d
  = Ok (fold_left (fun acc k => dict_set k (VInt 0) acc) bucket_keys d).
Proof. vm_compute. reflexivity. Qed.

Lemma zeros_other (ks : list string) (k : string) :
  forall d, ~ In k ks ->
  dict_get k (fold_left (fun acc k => dict_set k (VInt 0) acc) ks d) = dict_get k d.
Proof.
  induction ks as [|k0 ks IH]; intros d Hk; simpl.
  - reflexivity.
  - rewrite IH by (simpl in Hk; tauto).
    apply dict_get_set_other. apply String.eqb_neq.
    intros ->. apply Hk. left. reflexivity.
Qed.

Lemma zeros_bucket (ks : list string) (k : string) :
  forall d, NoDup ks -> In k ks ->
  dict_get k (fold_left (fun acc k => dict_set k (VInt 0) acc) ks d) = Some (VInt 0).
Proof.
  induction ks as [|k0 ks IH]; intros d Hnd Hk; simpl.
  - contradiction.
  - inversion Hnd as [|? ? Hk0 Hnd']; subst.
    destruct Hk as [->|Hk].
    + rewrite zeros_other by exact Hk0. apply dict_get_set_same.
    + apply IH; assumption.
Qed.

Lemma bucket_sum_zeros (d : dict) :
  (forall k, In k bucket_keys -> dict_get k d = Some (VInt 0)) -> bucket_sum d = 0.
Proof.
  intros H. unfold bucket_sum.
  assert (G : forall ks, (forall k, In k ks -> dict_get k d = Some (VInt 0)) ->
              fold_right Z.add 0 (map (count_at d) ks) = 0).
  { induction ks as [|k ks IH]; intros Hks; simpl.
    - reflexivity.
    - rewrite IH by (intros; apply Hks; right; assumption).
      unfold count_at. rewrite (Hks k) by (left; reflexivity). reflexivity. }
  apply G. exact H.
Qed.

Lemma bucket_sum_fresh (d : dict) :
  (forall k, In k bucket_keys -> dict_get k d = None) -> bucket_sum d = 0.
Proof.
  intros H. unfold bucket_sum.
  assert (G : forall ks, (forall k, In k ks -> dict_get k d = None) ->
              fold_right Z.add 0 (map (count_at d) ks) = 0).
  { induction ks as [|k ks IH]; intros Hks; simpl.
    - reflexivity.
    - rewrite IH by (intros; apply Hks; right; assumption).
      unfold count_at. rewrite (Hks k) by (left; reflexivity). reflexivity. }
  apply G. exact H.
Qed.

Lemma total_not_bucket : ~ In "Total_ratings" bucket_keys.
Proof. unfold bucket_keys; simpl. intuition discriminate. Qed.

Lemma film_url_not_bucket : ~ In "Film_URL" bucket_keys.
Proof. unfold bucket_keys; simpl. intuition discriminate. Qed.

(** What [histogram] leaves in a record that held no bucket before. *)
Lemma histogram_total (hist_soup : hist_page) (not_found : value) (d d' : dict) :
  (forall k, In k bucket_keys -> dict_get k d = None) ->
  histogram hist_soup not_found d = Ok d' ->
  dict_get "Total_ratings" d' = Some (VInt (bucket_sum d'))
  /\ (hp_bars hist_soup = [] ->
      (forall k, In k bucket_keys -> dict_get k d' = Some (VInt 0))
      /\ dict_get "Total_ratings" d' = Some (VInt 0)).
Proof.
  intros Hfresh Hrun. unfold histogram in Hrun.
  destruct (hp_bars hist_soup) as [|r rest] eqn:Hbars.
  - cbn [List.length Nat.eqb negb] in Hrun.
    rewrite histogram_zeros_eq in Hrun.
    set (z := fold_left (fun acc k => dict_set k (VInt 0) acc) bucket_keys d) in Hrun.
    cbn [bind] in Hrun. injection Hrun as <-.
    assert (Hz : forall k, In k bucket_keys ->
              dict_get k (dict_set "Total_ratings" (VInt 0) z) = Some (VInt 0)).
    { intros k Hk. rewrite dict_get_set_other.
      - apply zeros_bucket; [exact bucket_keys_NoDup | exact Hk].
      - apply String.eqb_neq. intros ->. exact (total_not_bucket Hk). }
    rewrite (bucket_sum_zeros _ Hz), dict_get_set_same.
    split; [reflexivity | intros _; split; [exact Hz | reflexivity]].
  - cbn [List.length Nat.eqb negb] in Hrun.
    destruct (histogram_bars 0 (r :: rest) not_found d 0) as [[fd tot]|e] eqn:Hloop;
      cbn [bind] in Hrun; [|discriminate].
    injection Hrun as <-.
    destruct (histogram_bars_sum (r :: rest) 0 not_found d fd 0 tot
                ltac:(lia)
                (fun j Hj => Hfresh _ (nth_In bucket_keys "" (proj2 Hj)))
                Hloop) as [Hs _].
    rewrite (bucket_sum_fresh d Hfresh) in Hs.
    split; [|discriminate].
    rewrite dict_get_set_same. f_equal. f_equal.
    unfold bucket_sum. rewrite sum_set_other by exact total_not_bucket.
    fold (bucket_sum fd). lia.
Qed.

(** ** The steps of [scrape_film] *)

(** One step of a run that ends well: the computation at the head of the
    chain did not raise. *)
Ltac run_step H :=
  lazymatch type of H with
  | bind (of_option _ ?o) _ = Ok _ =>
      let E := fresh "E" in
      destruct o eqn:E; cbn [bind of_option] in H; [|discriminate H]
  | bind ?c _ = Ok _ =>
      let E := fresh "E" in
      destruct c eqn:E; cbn [bind] in H; [|discriminate H]
  | (let '(_, _) := ?c in _) = Ok _ =>
      let E := fresh "E" in
      destruct c eqn:E
  end.

(** The record before the histogram holds none of the bucket keys. *)
Ltac no_bucket_key :=
  let k := fresh "k" in
  let Hk := fresh "Hk" in
  intros k Hk; unfold bucket_keys in Hk; simpl in Hk;
  repeat (destruct Hk as [<-|Hk]; [reflexivity|]);
  contradiction.

(** C2. For every record [scrape_film] produces, the Total_ratings field is
    the sum of the counts stored in the 10 bucket fields of the rating
    histogram; when the histogram fragment has no bar, the 10 buckets are 0
    and Total_ratings is 0. *)
Theorem total_ratings_is_bucket_sum
    (get : web) (film_html : li_tag) (not_found : value) (film_dict : dict) :
  scrape_film get film_html not_found = Ok film_dict ->
  dict_get "Total_ratings" film_dict = Some (VInt (bucket_sum film_dict))
  /\ (forall r, histogram_response_of get film_html = Ok r ->
        hp_bars (as_hist (content r)) = [] ->
        (forall k, In k bucket_keys -> dict_get k film_dict = Some (VInt 0))
        /\ dict_get "Total_ratings" film_dict = Some (VInt 0)).
Proof.
  intros H. unfold scrape_film in H.
  do 2 run_step H.
  do 3 run_step H.
  do 3 run_step H.
  run_step H.
  do 6 run_step H.
  run_step H.
  injection H as <-.
  match goal with
  | Hh : histogram _ _ ?d0 = Ok _ |- _ =>
      assert (Hfresh : forall k, In k bucket_keys -> dict_get k d0 = None)
        by no_bucket_key;
      destruct (histogram_total _ _ _ _ Hfresh Hh) as [Htot Hzero]
  end.
  assert (Hurl : forall key val rec, key <> "Film_URL" ->
            dict_get key (dict_set "Film_URL" val rec) = dict_get key rec).
  { intros ? ? ? Hkey. apply dict_get_set_other. apply String.eqb_neq. exact Hkey. }
  split.
  - rewrite Hurl by discriminate. rewrite Htot. do 2 f_equal.
    unfold bucket_sum. symmetry. apply sum_set_other. exact film_url_not_bucket.
  - intros r Hr Hbars.
    unfold histogram_response_of, film_url_of, histogram_url in Hr.
    match goal with
    | E : li_div_target_link film_html = _ |- _ => rewrite E in Hr
    end.
    cbn [bind of_option] in Hr.
    match goal with
    | E : index_m2 _ = _ |- _ => rewrite E in Hr
    end.
    cbn [bind] in Hr.
    match goal with
    | E : get (_ ++ _ ++ "/rating-histogram/") = Ok ?a |- _ =>
        tryif constr_eq a r then fail else rewrite E in Hr
    end.
    injection Hr as <-.
    destruct (Hzero Hbars) as [Hz Ht].
    split.
    + intros k Hk. rewrite Hurl.
      * apply Hz; exact Hk.
      * intros ->. exact (film_url_not_bucket Hk).
    + rewrite Hurl by discriminate. exact Ht.
Qed.

(** On the film of the example site the buckets hold 1, 0, 2, 0, 3, 0, 4,
    0, 5, 0 and Total_ratings is 15. *)
Lemma total_ratings_is_bucket_sum_witness :
  exists film_dict,
    scrape_film parasite_site parasite_li VNone = Ok film_dict
    /\ map (count_at film_dict) bucket_keys = [1; 0; 2; 0; 3; 0; 4; 0; 5; 0]
    /\ bucket_sum film_dict = 15
    /\ dict_get "Total_ratings" film_dict = Some (VInt (bucket_sum film_dict)).
Proof.
  destruct (scrape_film parasite_site parasite_li VNone) as [film_dict|e] eqn:E;
    [|vm_compute in E; discriminate E].
  exists film_dict.
  pose proof (total_ratings_is_bucket_sum _ _ _ _ E) as [Ht _].
  assert (E' := E). vm_compute in E'. injection E' as <-.
  split; [reflexivity|].
  split; [vm_compute; reflexivity|].
  split; [vm_compute; reflexivity|].
  exact Ht.
Defined.

(** C8. For each of the 10 half-star increments 0.5, 1.0, ..., 5.0,
    converting the value to its star glyphs and back gives the value again:
    [stars2val (val2stars v) = v]. *)
Theorem rating_round_trip (n : positive) (not_found : value) :
  (n <= 10)%positive ->
  exists stars,
    val2stars (increment n) not_found = Ok stars
    /\ stars2val stars not_found = VFloat (increment n).
Proof.
  intros Hn.
  assert (Hcases : In n [1; 2; 3; 4; 5; 6; 7; 8; 9; 10]%positive).
  { simpl. lia. }
  simpl in Hcases.
  repeat (destruct Hcases as [<-|Hcases];
          [eexists; split; vm_compute; reflexivity|]).
  contradiction.
Qed.

(** Three stars and a half. *)
Lemma rating_round_trip_witness :
  exists stars,
    val2stars (increment 7) VNone = Ok stars
    /\ stars2val stars VNone = VFloat (increment 7).
Proof. apply (rating_round_trip 7 VNone). vm_compute. discriminate. Defined.

(** ** The fields of [scrape_film] that are read without a guard *)

Lemma py_int_raises (s : string) (e : exn) : py_int s = Raise e -> e = ValueError.
Proof.
  unfold py_int.
  destruct (split_sign _) as [neg l].
  destruct (digitpart l) as [[ds [|c r]]|]; intros H; try discriminate;
    injection H as <-; reflexivity.
Qed.

(** The release year has a fallback for every exception its reading raises. *)
Lemma release_year_total (film_soup : film_page) :
  exists n, release_year_of film_soup = Ok n.
Proof.
  unfold release_year_of.
  destruct (1 <? Z.of_nat (List.length (fp_releaseyear film_soup)));
    [|eexists; reflexivity].
  destruct (nth 1 (fp_releaseyear film_soup) None) as [a|]; cbn [of_option bind].
  - destruct (negb (String.eqb (strip a) "")); [|eexists; reflexivity].
    destruct (py_int (strip a)) as [n|e] eqn:E; [eexists; reflexivity|].
    apply py_int_raises in E; subst e. eexists; reflexivity.
  - eexists; reflexivity.
Qed.

(** A film whose scraping raises is left out of the page, and the loop goes
    on with the next film. *)
Lemma scrape_films_skips (get : web) (film : li_tag) (rest : list li_tag)
    (not_found : value) (concat : bool) (og_list_url : string)
    (page_films : list dict) :
  is_ok (scrape_film get film not_found) = false ->
  scrape_films get (film :: rest) not_found concat og_list_url page_films
  = scrape_films get rest not_found concat og_list_url page_films.
Proof.
  intros H. cbn [scrape_films].
  destruct (scrape_film get film not_found); [discriminate H | reflexivity].
Qed.

(** The fields read inside a [try] fall back one by one: on a page that has
    none of their elements each of them is the sentinel, or an explicit
    fallback, and nothing is raised. *)
Lemma guarded_fields_fall_back (not_found : value) :
  release_year_of no_film = Ok 0
  /\ cast_of no_film not_found = not_found
  /\ average_rating_of no_film not_found = not_found
  /\ genres_of no_film not_found = not_found
  /\ runtime_of no_film not_found = not_found
  /\ details_of "country" no_film not_found = not_found
  /\ languages_of no_film not_found = (not_found, not_found)
  /\ description_of no_film not_found = not_found
  /\ details_of "studio" no_film not_found = not_found
  /\ fans_of no_hist = 0.
Proof. repeat split. Qed.

(** C1 (what the code does). The Director field is read without a fallback:
    on a film page that has its title but no [twitter:data1] meta,
    [scrape_film] raises [AttributeError], no field of the record is kept,
    and [scrape_page] leaves the film out. *)
Theorem missing_director_aborts_record
    (get : web) (film_html : li_tag) (not_found : value)
    (film_soup : film_page) (title : string) :
  film_page_of get film_html = Ok film_soup ->
  fp_col17_h1 film_soup = Some (Some title) ->
  fp_twitter_data1 film_soup = None ->
  scrape_film get film_html not_found = Raise AttributeError
  /\ forall rest concat og_list_url page_films,
       scrape_films get (film_html :: rest) not_found concat og_list_url page_films
       = scrape_films get rest not_found concat og_list_url page_films.
Proof.
  intros Hpage Htitle Hmeta.
  assert (Hraise : scrape_film get film_html not_found = Raise AttributeError).
  { unfold film_page_of, film_url_of in Hpage. unfold scrape_film.
    destruct (li_div_target_link film_html) as [[link|]|];
      cbn [bind of_option] in *; try discriminate Hpage.
    destruct (get (_domain ++ slice_from 1 link)) as [filmget|];
      cbn [bind] in *; try discriminate Hpage.
    injection Hpage as Hpage. rewrite Hpage, Htitle. cbn [bind of_option].
    destruct (release_year_total film_soup) as [n ->]. cbn [bind].
    rewrite Hmeta. reflexivity. }
  split; [exact Hraise|].
  intros. apply scrape_films_skips. rewrite Hraise. reflexivity.
Qed.

Lemma missing_director_aborts_record_witness :
  scrape_film no_director_site parasite_li VNone = Raise AttributeError
  /\ forall rest concat og_list_url page_films,
       scrape_films no_director_site (parasite_li :: rest) VNone concat
         og_list_url page_films
       = scrape_films no_director_site rest VNone concat og_list_url page_films.
Proof.
  apply (missing_director_aborts_record no_director_site parasite_li VNone
           no_director_page "Parasite"); reflexivity.
Defined.

(** The same film with its director: every field is there. *)
Example director_present :
  is_ok (scrape_film parasite_site parasite_li VNone) = true.
Proof. vm_compute. reflexivity. Qed.

(** A goal on a run that raises: the computation at the head of the chain
    raises, or the run goes on. *)
Ltac fail_step :=
  lazymatch goal with
  | |- is_ok (bind (of_option _ ?o) _) = false =>
      let E := fresh "E" in
      destruct o eqn:E; cbn [bind of_option is_ok]; [|reflexivity]
  | |- is_ok (bind ?c _) = false =>
      let E := fresh "E" in
      destruct c eqn:E; cbn [bind is_ok]; [|reflexivity]
  | |- is_ok (let '(_, _) := ?c in _) = false =>
      let E := fresh "E" in
      destruct c eqn:E
  end.

(** C4 (what the code does). The stats fragment is read without a
    fallback: when its answer, whatever its status, lacks the link of the
    watches, [scrape_film] raises and [scrape_page] leaves the film out,
    instead of emitting a record with sentinels. *)
Theorem failed_stats_fetch_drops_record
    (get : web) (film_html : li_tag) (not_found : value) (r : response) :
  stats_response_of get film_html = Ok r ->
  sp_watched (as_stats (content r)) = None ->
  is_ok (scrape_film get film_html not_found) = false
  /\ forall rest concat og_list_url page_films,
       scrape_films get (film_html :: rest) not_found concat og_list_url page_films
       = scrape_films get rest not_found concat og_list_url page_films.
Proof.
  intros Hstats Hwatched.
  assert (Hraise : is_ok (scrape_film get film_html not_found) = false).
  { unfold stats_response_of, film_url_of, stats_url in Hstats.
    unfold scrape_film.
    destruct (li_div_target_link film_html) as [[link|]|];
      cbn [bind of_option] in *; try discriminate Hstats.
    do 7 fail_step.
    destruct (index_m2 _) as [movie|]; cbn [bind] in *; try discriminate Hstats.
    rewrite Hstats. cbn [bind]. rewrite Hwatched. reflexivity. }
  split; [exact Hraise|].
  intros. apply scrape_films_skips. exact Hraise.
Qed.

Lemma failed_stats_fetch_drops_record_witness :
  is_ok (scrape_film no_stats_site parasite_li VNone) = false
  /\ forall rest concat og_list_url page_films,
       scrape_films no_stats_site (parasite_li :: rest) VNone concat
         og_list_url page_films
       = scrape_films no_stats_site rest VNone concat og_list_url page_films.
Proof.
  apply (failed_stats_fetch_drops_record no_stats_site parasite_li VNone
           not_found_response); reflexivity.
Defined.

(** The histogram fragment, for its part, has fallbacks: without its
    elements the record is produced, with 0 fans and 0 in every bucket. *)
Lemma failed_histogram_fetch_degrades :
  exists film_dict,
    scrape_film no_hist_site parasite_li VNone = Ok film_dict
    /\ dict_get "Fans" film_dict = Some (VInt 0)
    /\ dict_get "Total_ratings" film_dict = Some (VInt 0)
    /\ map (fun k => dict_get k film_dict) bucket_keys
       = repeat (Some (VInt 0)) 10.
Proof.
  eexists. split; [vm_compute; reflexivity|].
  repeat split; vm_compute; reflexivity.
Qed.

(** ** The full crawl of [scrape_list] *)

Section FullCrawl.

Variable get : web.
Variables output_file_extension list_type : string.
Variables quiet concat : bool.

Local Abbreviation follow fuel url films :=
  (follow_next fuel get url output_file_extension list_type quiet concat films).
Local Abbreviation turn url :=
  (turn_at get url output_file_extension list_type quiet concat).
Local Abbreviation after k url :=
  (url_after k get url output_file_extension list_type quiet concat).

(** One turn of the loop, read off [turn_at]. *)
Lemma follow_next_turn (fuel : nat) (list_url : string) (list_films : list dict) :
  follow (S fuel) list_url list_films
  = match turn list_url with
    | Last page_films => Some (Ok (list_films ++ page_films)%list)
    | Next page_films next_url => follow fuel next_url (list_films ++ page_films)%list
    | Fails e => Some (Raise e)
    end.
Proof.
  unfold turn_at. cbn [follow_next].
  destruct (scrape_page get list_url list_url output_file_extension list_type
              quiet concat) as [[page_films [soup|]]|e]; try reflexivity.
  destruct (lp_next (as_list soup)) as [[href|]|]; reflexivity.
Qed.

(** [k] turns that each find a next page use up [k] units of fuel. *)
Lemma follow_next_after (k : nat) :
  forall list_url u, after k list_url = Some u ->
  forall fuel list_films,
    exists films', follow (k + fuel) list_url list_films = follow fuel u films'.
Proof.
  induction k as [|k IH]; intros list_url u Hk fuel list_films.
  - injection Hk as <-. exists list_films. reflexivity.
  - cbn [url_after] in Hk. cbn [Nat.add]. rewrite follow_next_turn.
    destruct (turn list_url) as [pf|pf next_url|e]; try discriminate Hk.
    apply (IH next_url u Hk).
Qed.

Lemma follow_next_out_of_fuel (fuel : nat) :
  forall k list_url u, after k list_url = Some u -> (fuel <= k)%nat ->
  forall list_films, follow fuel list_url list_films = None.
Proof.
  induction fuel as [|fuel IH]; intros k list_url u Hk Hle list_films.
  - reflexivity.
  - destruct k as [|k]; [lia|].
    cbn [url_after] in Hk. rewrite follow_next_turn.
    destruct (turn list_url) as [pf|pf next_url|e]; try discriminate Hk.
    apply (IH k next_url u Hk). lia.
Qed.

(** A chain of next pages that comes back to a URL never ends. *)
Lemma cycle_never_ends (k : nat) (list_url : string) :
  (0 < k)%nat -> after k list_url = Some list_url ->
  forall fuel list_films, follow fuel list_url list_films = None.
Proof.
  intros Hk Hcycle fuel.
  induction fuel as [fuel IH] using (well_founded_induction lt_wf).
  intros list_films.
  destruct (Nat.le_gt_cases fuel k) as [Hle|Hgt].
  - exact (follow_next_out_of_fuel fuel k list_url list_url Hcycle Hle list_films).
  - replace fuel with (k + (fuel - k))%nat by lia.
    destruct (follow_next_after k list_url list_url Hcycle (fuel - k) list_films)
      as [films' ->].
    apply IH. lia.
Qed.

Lemma ends_at_follow (k : nat) (list_url : string) :
  ends_at k get list_url output_file_extension list_type quiet concat ->
  forall list_films, exists r, follow (k + 1) list_url list_films = Some r.
Proof.
  intros [u [Hk Hlast]] list_films.
  destruct (follow_next_after k list_url u Hk 1 list_films) as [films' ->].
  rewrite follow_next_turn.
  destruct (turn u) as [pf|pf next_url|e]; [eexists; reflexivity | contradiction |
    eexists; reflexivity].
Qed.

Lemma follow_ends_at (fuel : nat) :
  forall list_url list_films r, follow fuel list_url list_films = Some r ->
  exists k, ends_at k get list_url output_file_extension list_type quiet concat.
Proof.
  induction fuel as [|fuel IH]; intros list_url list_films r Hrun.
  - discriminate Hrun.
  - rewrite follow_next_turn in Hrun.
    destruct (turn list_url) as [pf|pf next_url|e] eqn:Hturn.
    + exists 0%nat, list_url. split; [reflexivity|]. rewrite Hturn. exact I.
    + destruct (IH next_url _ r Hrun) as [k [u [Hk Hlast]]].
      exists (S k), u. split; [|exact Hlast].
      cbn [url_after]. rewrite Hturn. exact Hk.
    + exists 0%nat, list_url. split; [reflexivity|]. rewrite Hturn. exact I.
Qed.

(** C3 (amended). The page-following loop of a full crawl ends exactly when
    the chain of next-page references reaches a page that has none (or a
    page whose turn raises).  It keeps no record of the URLs it has seen: a
    next-page reference that leads back to a URL already visited makes the
    loop run for ever. *)
Theorem full_crawl_ends_only_without_next (list_url : string) :
  ((exists fuel r, follow fuel list_url [] = Some r)
   <-> (exists k, ends_at k get list_url output_file_extension list_type quiet concat))
  /\ (forall k, (0 < k)%nat -> after k list_url = Some list_url ->
      forall fuel, follow fuel list_url [] = None).
Proof.
  split.
  - split.
    + intros [fuel [r Hrun]]. exact (follow_ends_at fuel list_url [] r Hrun).
    + intros [k Hend]. exists (k + 1)%nat. exact (ends_at_follow k list_url Hend []).
  - intros k Hk Hcycle fuel. exact (cycle_never_ends k list_url Hk Hcycle fuel []).
Qed.

(** C5 (what the code does). In a full crawl, a page that answers with a
    status other than 200 makes [scrape_page] return no document, and the
    loop, which asks that document for its next link, raises
    [AttributeError] to the caller: the films gathered so far are lost. *)
Theorem failed_page_in_full_crawl_raises
    (list_url : string) (resp : response) (fuel : nat) (list_films : list dict) :
  get list_url = Ok resp ->
  status_code resp <> 200 ->
  follow (S fuel) list_url list_films = Some (Raise AttributeError).
Proof.
  intros Hget Hstatus. cbn [follow_next]. unfold scrape_page.
  rewrite Hget. cbn [bind].
  apply Z.eqb_neq in Hstatus. rewrite Hstatus. reflexivity.
Qed.

(** With selected pages, a page that cannot be fetched adds nothing and the
    loop goes on. *)
Lemma failed_page_is_skipped
    (list_url : string) (p : Z) (rest : list Z) (list_films : list dict) :
  (forall resp, get (list_url ++ "page/" ++ str_of_int p ++ "/") = Ok resp ->
                status_code resp <> 200) ->
  selected_pages get list_url (p :: rest) output_file_extension list_type
    quiet concat list_films
  = selected_pages get list_url rest output_file_extension list_type
      quiet concat list_films.
Proof.
  intros Hfail. cbn [selected_pages]. f_equal. unfold scrape_page.
  destruct (get (list_url ++ "page/" ++ str_of_int p ++ "/")) as [resp|e] eqn:Hget.
  - cbn [bind]. pose proof (Hfail resp eq_refl) as Hstatus.
    apply Z.eqb_neq in Hstatus. rewrite Hstatus.
    cbn [negb bind try_except]. apply app_nil_r.
  - reflexivity.
Qed.

End FullCrawl.

Lemma full_crawl_ends_only_without_next_witness :
  follow_next 1000 looping_site list_url_2 ".csv" "list" false false [] = None.
Proof.
  apply (proj2 (full_crawl_ends_only_without_next looping_site ".csv" "list"
                  false false list_url_2) 2%nat).
  - lia.
  - vm_compute. reflexivity.
Defined.

(** C3 (as stated, refuted). Page 1 leads to page 2, page 2 to page 3, and
    the next reference of page 3 repeats the URL of page 2: the full crawl
    does not terminate, whatever the number of turns it is given. *)
Lemma repeated_next_url_loops_forever :
  ~ exists fuel r,
      scrape_list fuel looping_site list_url_1 (Pages []) ".csv" "list" false false
      = Some r.
Proof.
  intros [fuel [r Hrun]].
  unfold scrape_list in Hrun. cbn [String.eqb Ascii.eqb Bool.eqb] in Hrun.
  destruct fuel as [|fuel]; [discriminate Hrun|].
  rewrite follow_next_turn in Hrun.
  change (turn_at looping_site list_url_1 ".csv" "list" false false)
    with (Next [] list_url_2) in Hrun.
  cbv beta iota in Hrun.
  rewrite (cycle_never_ends looping_site ".csv" "list" false false 2 list_url_2)
    in Hrun; [discriminate Hrun | lia | vm_compute; reflexivity].
Qed.

Lemma failed_page_in_full_crawl_raises_witness :
  follow_next 1 two_page_site list_url_1 ".csv" "list" false false []
  = Some (Raise AttributeError).
Proof.
  apply (failed_page_in_full_crawl_raises two_page_site ".csv" "list" false false
           list_url_1 not_found_response).
  - reflexivity.
  - vm_compute. discriminate.
Defined.

(** The selected pages 2 and 5, page 5 failing: the film of page 2, nothing
    from page 5, and no exception. *)
Example selected_pages_2_and_5 :
  exists film_dict,
    scrape_list 0 two_page_site list_url_1 (Pages [2; 5]) ".json" "list" false false
    = Some (Ok [film_dict])
    /\ scrape_film two_page_site parasite_li VNone = Ok film_dict.
Proof. eexists. split; vm_compute; reflexivity. Qed.

(** ** The diary *)

(** What the loop of [scrape_diary] does with one page, read off the
    answer of the page. *)
Lemma diary_pages_cons (get : web) (base_url page : string) (rest : list string)
    (films : list dict) (resp : response) :
  get (diary_page_url base_url page) = Ok resp ->
  diary_pages get base_url (page :: rest) films
  = match entries_of resp with
    | [] => diary_pages get base_url rest films
    | _ => Raise NameError
    end.
Proof.
  intros Hget. cbn [diary_pages]. unfold diary_page_url in Hget.
  rewrite Hget. cbn [bind]. unfold entries_of.
  destruct (negb (status_code resp =? 200)); [reflexivity|].
  destruct (first_selected (entry_selectors (as_diary (content resp))) []);
    [destruct (dp_articles (as_diary (content resp)))|]; reflexivity.
Qed.

(** C6 (what the code does). The delay between diary pages is
    [time.sleep(0.25)] in a module that does not import [time]: as soon as
    a page answers with entries, the step raises [NameError] and the crawl
    stops there, without going on to the next page. *)
Theorem politeness_delay_raises
    (get : web) (base_url page : string) (rest : list string)
    (films : list dict) (resp : response) :
  get (diary_page_url base_url page) = Ok resp ->
  entries_of resp <> [] ->
  diary_pages get base_url (page :: rest) films = Raise NameError.
Proof.
  intros Hget Hentries. rewrite (diary_pages_cons _ _ _ _ _ _ Hget).
  destruct (entries_of resp); [contradiction | reflexivity].
Qed.

Lemma politeness_delay_raises_witness :
  diary_pages diary_site diary_url ["1"; "2"] [] = Raise NameError.
Proof.
  eapply (politeness_delay_raises diary_site diary_url "1" ["2"] []).
  - vm_compute. reflexivity.
  - vm_compute. discriminate.
Defined.

(** The crawl of the diary of the example, with the default page. *)
Example diary_crawl_raises :
  scrape_list 0 diary_site diary_url (Pages []) ".csv" "diary" false false
  = Some (Raise NameError).
Proof. vm_compute. reflexivity. Qed.

(** The loop over the pages returns only the list it started with. *)
Lemma diary_pages_returns (get : web) (base_url : string) (pages : list string) :
  forall films r, diary_pages get base_url pages films = Ok r -> r = films.
Proof.
  induction pages as [|page rest IH]; intros films r Hrun.
  - injection Hrun as <-. reflexivity.
  - destruct (get (diary_page_url base_url page)) as [resp|e] eqn:Hget.
    + rewrite (diary_pages_cons _ _ _ _ _ _ Hget) in Hrun.
      destruct (entries_of resp); [exact (IH films r Hrun) | discriminate Hrun].
    + cbn [diary_pages] in Hrun. unfold diary_page_url in Hget.
      rewrite Hget in Hrun. discriminate Hrun.
Qed.

(** When no requested page has an entry, the loop returns its list. *)
Lemma diary_pages_without_entries (get : web) (base_url : string)
    (pages : list string) (films : list dict) :
  (forall page, In page pages ->
     exists resp, get (diary_page_url base_url page) = Ok resp
                  /\ entries_of resp = []) ->
  diary_pages get base_url pages films = Ok films.
Proof.
  induction pages as [|page rest IH]; intros Hnone.
  - reflexivity.
  - destruct (Hnone page (or_introl eq_refl)) as [resp [Hget Hentries]].
    rewrite (diary_pages_cons _ _ _ _ _ _ Hget), Hentries.
    apply IH. intros p Hp. apply Hnone. right. exact Hp.
Qed.

(** C10 (what the code does). [scrape_diary] returns the one record
    [{"note": "no diary entries found"}], whose key is not a key of the
    diary records, or it raises: it never returns the records of the
    entries it has read, because the page that holds them stops the crawl
    with [NameError]. *)
Theorem scrape_diary_note_or_raise
    (get : web) (base_url : string) (page_options : page_options)
    (output_file_extension : string) (quiet concat : bool) :
  (scrape_diary get base_url page_options output_file_extension quiet concat
   = Ok [note_record]
   \/ exists e,
        scrape_diary get base_url page_options output_file_extension quiet concat
        = Raise e)
  /\ keys note_record = ["note"]
  /\ ~ In "note" diary_keys
  /\ scrape_diary diary_site diary_url (Pages []) ".csv" false false
     = Raise NameError.
Proof.
  split; [|split; [reflexivity|split; [|vm_compute; reflexivity]]].
  - unfold scrape_diary.
    match goal with
    | |- context [diary_pages get base_url ?ps []] =>
        destruct (diary_pages get base_url ps []) as [films|e] eqn:Hrun
    end.
    + apply diary_pages_returns in Hrun. subst films. left. reflexivity.
    + right. exists e. reflexivity.
  - unfold diary_keys. simpl. intuition discriminate.
Qed.

(** A diary none of whose pages answers: the note. *)
Example empty_diary_gives_note :
  scrape_diary (site []) diary_url (Pages [1; 2]) ".csv" false false
  = Ok [note_record].
Proof. vm_compute. reflexivity. Qed.

(** An entry that is read gives a record with the keys of the diary. *)
Example diary_entry_keys :
  map keys (diary_entries [one_entry] []) = [diary_keys].
Proof. vm_compute. reflexivity. Qed.

(** ** The number parsers *)

Lemma first_fans_match_no_digit (l : chars) :
  (forall c, In c l -> is_digit c = false) -> first_fans_match l = Raise IndexError.
Proof.
  induction l as [|c l IH]; intros Hl.
  - reflexivity.
  - cbn [first_fans_match]. unfold match_fans_here. cbn [span_digits].
    rewrite (Hl c (or_introl eq_refl)).
    apply IH. intros c' Hc'. apply Hl. right. exact Hc'.
Qed.

(** C7 (amended). The parser of the Fans field reads the 'K' notation:
    "1.2K" gives 1200, and an empty text or a text without a digit gives 0,
    never raising.  The parser of the Watches, List_appearances and Likes
    fields strips the thousands separators: "3,482" gives 3482. *)
Theorem compact_number_parsers :
  parse_fans "1.2K" = 1200
  /\ parse_fans "" = 0
  /\ (forall text, no_digit text -> parse_fans text = 0)
  /\ parse_count "3,482" = Ok 3482.
Proof.
  split; [vm_compute; reflexivity|].
  split; [vm_compute; reflexivity|].
  split; [|vm_compute; reflexivity].
  intros text Htext. unfold parse_fans, fans_of.
  cbn [hp_all_link of_option bind].
  rewrite (first_fans_match_no_digit (chars_of text) Htext). reflexivity.
Qed.

Lemma compact_number_parsers_witness : parse_fans "no fans yet" = 0.
Proof.
  apply (proj1 (proj2 (proj2 compact_number_parsers))).
  intros c Hc. vm_compute in Hc.
  repeat (destruct Hc as [<-|Hc]; [reflexivity|]).
  contradiction.
Defined.

(** C7 (as stated, refuted). Neither parser does the three things: the
    parser of Fans gives 0 on "3,482", and the parser of the counts gives
    12 on "1.2K" and raises on the empty text. *)
Lemma no_parser_reads_both_notations :
  ~ (parse_fans "1.2K" = 1200 /\ parse_fans "3,482" = 3482 /\ parse_fans "" = 0)
  /\ ~ (parse_count "1.2K" = Ok 1200 /\ parse_count "3,482" = Ok 3482
        /\ parse_count "" = Ok 0).
Proof.
  split.
  - intros [_ [H _]]. vm_compute in H. discriminate H.
  - intros [H _]. vm_compute in H. discriminate H.
Qed.

Example fans_and_counts :
  parse_fans "3,482" = 0 /\ parse_count "1.2K" = Ok 12
  /\ parse_count "" = Raise ValueError.
Proof. repeat split; vm_compute; reflexivity. Qed.

(** ** The normalization of the diary entries *)

Lemma filter_all {A} (p : A -> bool) (l : list A) :
  forallb p l = true -> filter p l = l.
Proof.
  induction l as [|a l IH]; simpl; intros H.
  - reflexivity.
  - apply andb_prop in H. destruct H as [Ha Hl].
    rewrite Ha, IH by exact Hl. reflexivity.
Qed.

Lemma filter_none {A} (p : A -> bool) (l : list A) :
  existsb p l = false -> filter p l = [].
Proof.
  induction l as [|a l IH]; simpl; intros H.
  - reflexivity.
  - apply orb_false_elim in H. destruct H as [Ha Hl].
    rewrite Ha. exact (IH Hl).
Qed.

(** Every row has the columns of the header, in its order. *)
Lemma row_of_columns (entry : Diary.pydict) :
  map fst (Diary.row_of entry) = Diary.fieldnames.
Proof. reflexivity. Qed.

Lemma rows_of_columns (entries_list : list Diary.pyval) (r : Diary.row) :
  In r (Diary.rows_of entries_list) -> map fst r = Diary.fieldnames.
Proof.
  unfold Diary.rows_of. intros H. apply in_map_iff in H.
  destruct H as [e [<- _]]. destruct e; apply row_of_columns.
Qed.

(** C9. The normalization brings the shapes it knows to one schema: a
    mapping whose ["entries"] key holds a mapping of [n] sub-records gives
    exactly [n] rows, each with exactly the 10 canonical field names; an
    input of none of the known shapes gives no row, and nothing raises. *)
Theorem normalize_to_canonical_rows :
  (forall (d sub : Diary.pydict),
     Diary.lookup "entries" d = Some (Diary.PDict sub) ->
     forallb Diary.is_dict (Diary.values sub) = true ->
     exists rows,
       Diary.save_diary (Diary.PDict d) = Some (Diary.fieldnames, rows)
       /\ List.length rows = List.length sub
       /\ forall r, In r rows -> map fst r = Diary.fieldnames)
  /\ (forall entries,
        Diary.recognized entries = false ->
        Diary.normalize entries = []
        /\ (Diary.save_diary entries = None
            \/ Diary.save_diary entries = Some (Diary.fieldnames, []))).
Proof.
  split.
  - intros d sub Hentries Hsub.
    exists (Diary.rows_of (Diary.values sub)).
    assert (Hnorm : Diary.normalize (Diary.PDict d) = Diary.values sub).
    { unfold Diary.normalize. rewrite Hentries. apply filter_all. exact Hsub. }
    split; [|split].
    + unfold Diary.save_diary. rewrite Hnorm.
      destruct d; [discriminate Hentries | reflexivity].
    + unfold Diary.rows_of, Diary.values. rewrite !length_map. reflexivity.
    + apply rows_of_columns.
  - intros entries Hshape.
    assert (Hnorm : Diary.normalize entries = []).
    { destruct entries as [| | | | l | d]; try reflexivity; try discriminate Hshape.
      unfold Diary.recognized in Hshape. unfold Diary.normalize.
      destruct (Diary.lookup "entries" d) as [[| | | | |]|];
        try discriminate Hshape;
        apply orb_false_elim in Hshape; destruct Hshape as [Hdicts Hlists];
        rewrite Hdicts, (filter_none _ _ Hlists); reflexivity. }
    split; [exact Hnorm|].
    unfold Diary.save_diary. rewrite Hnorm.
    destruct (Diary.truthy entries); [right | left]; reflexivity.
Qed.

(** The input [{"entries": {"a": {...}, "b": {...}}, "count": 2}] gives 2
    rows, and the number 5 gives none. *)
Lemma normalize_to_canonical_rows_witness :
  (exists rows,
     Diary.save_diary raw_diary = Some (Diary.fieldnames, rows)
     /\ List.length rows = 2%nat
     /\ forall r, In r rows -> map fst r = Diary.fieldnames)
  /\ Diary.normalize (Diary.PInt 5) = [].
Proof.
  split.
  - apply (proj1 normalize_to_canonical_rows
             [("entries", Diary.PDict entries_a_b); ("count", Diary.PInt 2)]
             entries_a_b); reflexivity.
  - apply (proj2 normalize_to_canonical_rows). reflexivity.
Defined.

(** The two rows of the example. *)
Example two_entries_rows :
  Diary.save_diary raw_diary
  = Some (Diary.fieldnames,
          [ [("name", Diary.Text "Parasite"); ("slug", Diary.Text "");
             ("id", Diary.Text ""); ("release", Diary.Text "");
             ("runtime", Diary.Text ""); ("rewatched", Diary.Text "");
             ("rating", Diary.Text "9"); ("liked", Diary.Text "1");
             ("reviewed", Diary.Text ""); ("date", Diary.Text "2025-03-09")];
            [("name", Diary.Text "Heat"); ("slug", Diary.Text "");
             ("id", Diary.Text ""); ("release", Diary.Text "");
             ("runtime", Diary.Text ""); ("rewatched", Diary.Text "");
             ("rating", Diary.Text ""); ("liked", Diary.Text "");
             ("reviewed", Diary.Text ""); ("date", Diary.Text "")] ]).
Proof. vm_compute. reflexivity. Qed.


(** * Further properties of the code *)

(** ** Texts and numbers *)

Lemma chars_of_str_of (l : chars) : chars_of (str_of l) = l.
Proof. apply list_ascii_of_string_of_list_ascii. Qed.

Lemma str_of_chars_of (s : string) : str_of (chars_of s) = s.
Proof. apply string_of_list_ascii_of_string. Qed.

Lemma chars_of_append (a b : string) :
  chars_of (a ++ b) = (chars_of a ++ chars_of b)%list.
Proof.
  induction a as [|c a IH]; simpl.
  - reflexivity.
  - unfold chars_of in *. simpl. rewrite IH. reflexivity.
Qed.

Lemma chars_of_join (l : list string) :
  chars_of (join l) = List.concat (map chars_of l).
Proof.
  unfold join. induction l as [|x l IH].
  - reflexivity.
  - destruct l as [|y l].
    + simpl. rewrite app_nil_r. reflexivity.
    + change (String.concat "" (x :: y :: l))
        with (x ++ "" ++ String.concat "" (y :: l)).
      rewrite !chars_of_append, IH. reflexivity.
Qed.

(** The runs of digits, put together, are the digits of the text. *)
Lemma digit_runs_concat (l : chars) :
  forall cur,
    List.concat (map chars_of (digit_runs cur l))
    = (rev cur ++ filter is_digit l)%list.
Proof.
  induction l as [|c l IH]; intros cur; simpl.
  - destruct cur as [|c0 cur]; simpl.
    + reflexivity.
    + rewrite chars_of_str_of, !app_nil_r. reflexivity.
  - destruct (is_digit c) eqn:Hc.
    + rewrite IH. simpl. rewrite <- app_assoc. reflexivity.
    + destruct cur as [|c0 cur].
      * rewrite IH. reflexivity.
      * simpl. rewrite chars_of_str_of, IH. reflexivity.
Qed.

Lemma digit_not_space (c : ascii) : is_digit c = true -> is_space c = false.
Proof.
  unfold is_digit, is_space. intros H.
  apply andb_prop in H. destruct H as [H1 H2].
  apply Z.leb_le in H1. apply Z.leb_le in H2.
  apply orb_false_intro; apply andb_false_intro2; apply Z.leb_gt; lia.
Qed.

Lemma lstrip_by_head (p : ascii -> bool) (c : ascii) (l : chars) :
  p c = false -> lstrip_by p (c :: l) = c :: l.
Proof. intros H. simpl. rewrite H. reflexivity. Qed.

(** Stripping leaves a text of digits as it is. *)
Lemma strip_digits (l : chars) :
  Forall (fun c => is_digit c = true) l -> strip_by is_space l = l.
Proof.
  intros Hl. unfold strip_by, rstrip_by.
  assert (Hleft : lstrip_by is_space l = l).
  { destruct Hl as [|c l Hc _]; [reflexivity|].
    apply lstrip_by_head. apply digit_not_space. exact Hc. }
  rewrite Hleft.
  destruct (rev l) as [|c r] eqn:Hr.
  - rewrite <- (rev_involutive l), Hr. reflexivity.
  - assert (Hc : is_digit c = true).
    { rewrite Forall_forall in Hl. apply Hl. apply in_rev. rewrite Hr.
      left. reflexivity. }
    rewrite lstrip_by_head by (apply digit_not_space; exact Hc).
    rewrite <- Hr. apply rev_involutive.
Qed.

Lemma digitpart_more_digits (l : chars) :
  Forall (fun c => is_digit c = true) l ->
  forall acc, digitpart_more l acc = ((rev acc ++ l)%list, []).
Proof.
  induction 1 as [|c l Hc _ IH]; intros acc; simpl.
  - rewrite app_nil_r. reflexivity.
  - rewrite Hc, IH. simpl. rewrite <- app_assoc. reflexivity.
Qed.

Lemma digit_val_nonneg (c : ascii) : is_digit c = true -> 0 <= digit_val c.
Proof.
  unfold is_digit, digit_val. intros H.
  apply andb_prop in H. destruct H as [H _]. apply Z.leb_le in H. lia.
Qed.

Lemma nat_of_digits_nonneg (ds : chars) :
  Forall (fun c => is_digit c = true) ds -> 0 <= nat_of_digits ds.
Proof.
  unfold nat_of_digits. intros H.
  assert (G : forall acc, 0 <= acc ->
            0 <= fold_left (fun a c => 10 * a + digit_val c) ds acc).
  { induction H as [|c ds Hc _ IH]; intros acc Hacc; cbn [fold_left].
    - exact Hacc.
    - apply IH. pose proof (digit_val_nonneg c Hc). lia. }
  apply G. lia.
Qed.

(** [int] of a text that is made of digits: the number they spell; of the
    empty text: [ValueError]. *)
Lemma py_int_digits (ds : chars) :
  Forall (fun c => is_digit c = true) ds ->
  py_int (str_of ds)
  = match ds with
    | [] => Raise ValueError
    | _ => Ok (nat_of_digits ds)
    end.
Proof.
  intros Hds. unfold py_int.
  rewrite chars_of_str_of, (strip_digits ds Hds).
  destruct Hds as [|c ds Hc Hds]; [reflexivity|].
  unfold split_sign.
  assert (Hminus : Ascii.eqb c "-" = false).
  { apply Ascii.eqb_neq. intros ->. discriminate Hc. }
  assert (Hplus : Ascii.eqb c "+" = false).
  { apply Ascii.eqb_neq. intros ->. discriminate Hc. }
  rewrite Hminus, Hplus. unfold digitpart. rewrite Hc.
  rewrite (digitpart_more_digits ds Hds). reflexivity.
Qed.

Lemma filter_digits_Forall (l : chars) :
  Forall (fun c => is_digit c = true) (filter is_digit l).
Proof.
  apply Forall_forall. intros c Hc. apply filter_In in Hc. tauto.
Qed.

(** X1. The parser of Watches, List_appearances and Likes reads all the
    digits of the title, in order, as one number, whatever stands between
    them; a title without a digit raises [ValueError]. *)
Theorem count_reads_all_digits (text : string) :
  parse_count text
  = if has_digit text then Ok (nat_of_digits (digits_of text))
    else Raise ValueError.
Proof.
  unfold parse_count, count_of_title. cbn [of_option bind].
  unfold findall_digits.
  unfold has_digit, digits_of.
  assert (E : join (digit_runs [] (chars_of text))
              = str_of (filter is_digit (chars_of text))).
  { rewrite <- (str_of_chars_of (join _)), chars_of_join, digit_runs_concat.
    reflexivity. }
  rewrite E, (py_int_digits _ (filter_digits_Forall _)). clear E.
  induction (chars_of text) as [|c l IH]; simpl.
  - reflexivity.
  - destruct (is_digit c); [reflexivity | exact IH].
Qed.


(** ** The shape of a record of [scrape_film] *)

Lemma dict_set_fresh (k : string) (v : value) (d : dict) :
  dict_get k d = None -> dict_set k v d = (d ++ [(k, v)])%list.
Proof.
  induction d as [|[k0 v0] d IH]; simpl; intros H.
  - reflexivity.
  - destruct (String.eqb k k0); [discriminate H|].
    rewrite IH by exact H. reflexivity.
Qed.

Lemma dict_get_app (k : string) (a b : dict) :
  dict_get k (a ++ b)%list
  = match dict_get k a with
    | Some v => Some v
    | None => dict_get k b
    end.
Proof.
  induction a as [|[k0 v0] a IH]; simpl.
  - reflexivity.
  - destruct (String.eqb k k0); [reflexivity | exact IH].
Qed.

Lemma keys_app (a b : dict) : keys (a ++ b)%list = (keys a ++ keys b)%list.
Proof. apply map_app. Qed.

Lemma skipn_nth {A} (l : list A) (default : A) :
  forall i, (i < List.length l)%nat ->
  skipn i l = nth i l default :: skipn (S i) l.
Proof.
  induction l as [|a l IH]; intros i Hi; simpl in Hi.
  - lia.
  - destruct i as [|i]; [reflexivity|].
    cbn [skipn nth]. apply IH. lia.
Qed.

(** The runs of digits of a text hold digits only. *)
Lemma digit_runs_digits (l : chars) :
  forall cur, Forall (fun c => is_digit c = true) cur ->
  Forall (fun s => Forall (fun c => is_digit c = true) (chars_of s))
    (digit_runs cur l).
Proof.
  induction l as [|c l IH]; intros cur Hcur; simpl.
  - destruct cur; constructor; [|constructor].
    rewrite chars_of_str_of. apply Forall_rev. exact Hcur.
  - destruct (is_digit c) eqn:Hc.
    + apply IH. constructor; assumption.
    + destruct cur as [|c0 cur]; [apply IH; constructor|].
      constructor; [|apply IH; constructor].
      rewrite chars_of_str_of. apply Forall_rev. exact Hcur.
Qed.

Lemma concat_digits (runs : list string) :
  Forall (fun s => Forall (fun c => is_digit c = true) (chars_of s)) runs ->
  Forall (fun c => is_digit c = true) (List.concat (map chars_of runs)).
Proof.
  induction 1 as [|s runs Hs _ IH]; simpl.
  - constructor.
  - apply Forall_app. split; assumption.
Qed.

Lemma removelast_Forall {A} (P : A -> Prop) (l : list A) :
  Forall P l -> Forall P (removelast l).
Proof.
  induction 1 as [|a l Ha Hl IH]; simpl.
  - constructor.
  - destruct l; [constructor | constructor; assumption].
Qed.

(** A number read off runs of digits is not negative. *)
Lemma py_int_join_nonneg (runs : list string) (n : Z) :
  Forall (fun s => Forall (fun c => is_digit c = true) (chars_of s)) runs ->
  py_int (join runs) = Ok n -> 0 <= n.
Proof.
  intros Hruns Hn.
  pose proof (concat_digits runs Hruns) as Hds.
  rewrite <- (str_of_chars_of (join runs)), chars_of_join in Hn.
  rewrite (py_int_digits _ Hds) in Hn.
  destruct (List.concat (map chars_of runs)) eqn:E; [discriminate Hn|].
  injection Hn as <-. apply nat_of_digits_nonneg. exact Hds.
Qed.

Lemma count_of_title_nonneg (tag : option (option string)) (n : Z) :
  count_of_title tag = Ok n -> 0 <= n.
Proof.
  unfold count_of_title.
  destruct tag as [[title|]|]; cbn [of_option bind]; try discriminate.
  apply py_int_join_nonneg. apply digit_runs_digits. constructor.
Qed.

Lemma bar_count_nonneg (r : string) (n : Z) : bar_count r = Ok n -> 0 <= n.
Proof.
  unfold bar_count.
  destruct (String.eqb (strip_chars " " r) "").
  - intros H. injection H as <-. lia.
  - apply py_int_join_nonneg. apply removelast_Forall.
    apply digit_runs_digits. constructor.
Qed.

(** The loop over the bars appends one bucket per bar, in the order of the
    rating scale, and adds the counts to the total. *)
Lemma histogram_bars_shape (ratings : list string) :
  forall (i : nat) (not_found : value) (d d' : dict) (tot tot' : Z),
    (i <= 10)%nat ->
    (forall j, (i <= j < 10)%nat -> dict_get (nth j bucket_keys "") d = None) ->
    histogram_bars (Z.of_nat i) ratings not_found d tot = Ok (d', tot') ->
    exists counts,
      Forall2 (fun r c => bar_count r = Ok c) ratings counts
      /\ (i + List.length ratings <= 10)%nat
      /\ d' = (d ++ combine (skipn i bucket_keys) (map VInt counts))%list
      /\ tot' = tot + sum counts.
Proof.
  induction ratings as [|r rest IH]; intros i nf d d' tot tot' Hi Hfresh Hrun.
  - simpl in Hrun. injection Hrun as <- <-. exists [].
    split; [constructor|]. split; [simpl; lia|].
    split; [|simpl; lia].
    simpl. destruct (skipn i bucket_keys); rewrite app_nil_r; reflexivity.
  - rewrite histogram_bars_cons in Hrun.
    destruct (Nat.eq_dec i 10) as [->|Hne].
    + pose proof (val2stars_eleven nf) as E.
      unfold bind in E, Hrun.
      destruct (int_truediv (Z.of_nat 10 + 1) 2); [|discriminate].
      rewrite E in Hrun. discriminate.
    + assert (Hlt : (i < 10)%nat) by lia.
      rewrite (truediv_index i Hlt) in Hrun. cbn [bind] in Hrun.
      rewrite (val2stars_index i nf Hlt) in Hrun. cbn [bind] in Hrun.
      replace (Z.of_nat i + 1) with (Z.of_nat (S i)) in Hrun by lia.
      assert (Hskip : skipn i bucket_keys
                      = nth i bucket_keys "" :: skipn (S i) bucket_keys)
        by (apply skipn_nth; exact Hlt).
      set (key := nth i bucket_keys "") in *.
      assert (Hnext : forall n j, (S i <= j < 10)%nat ->
                dict_get (nth j bucket_keys "") (dict_set key (VInt n) d) = None).
      { intros n j Hj. rewrite dict_get_set_other.
        - apply Hfresh; lia.
        - apply bucket_key_neq; lia. }
      assert (Hset : forall n, dict_set key (VInt n) d = (d ++ [(key, VInt n)])%list).
      { intros n. apply dict_set_fresh. apply Hfresh. lia. }
      assert (Hcount : bar_count r
                = if String.eqb (strip_chars " " r) "" then Ok 0
                  else py_int (join (removelast (findall_digits (strip_chars " " r)))))
        by reflexivity.
      destruct (String.eqb (strip_chars " " r) "").
      * destruct (IH (S i) nf _ d' tot tot' ltac:(lia) (Hnext 0) Hrun)
          as [counts [Hc [Hlen [Hd Ht]]]].
        exists (0 :: counts).
        split; [constructor; assumption|].
        split; [simpl; lia|].
        split; [|simpl; lia].
        rewrite Hd, Hset, Hskip, <- app_assoc. reflexivity.
      * destruct (py_int (join (removelast (findall_digits (strip_chars " " r)))))
          as [n|e]; cbn [bind] in Hrun; [|discriminate].
        destruct (IH (S i) nf _ d' (tot + n) tot' ltac:(lia) (Hnext n) Hrun)
          as [counts [Hc [Hlen [Hd Ht]]]].
        exists (n :: counts).
        split; [constructor; assumption|].
        split; [simpl; lia|].
        split; [|simpl; lia].
        rewrite Hd, Hset, Hskip, <- app_assoc. reflexivity.
Qed.

Lemma Forall2_length_eq {A B} (R : A -> B -> Prop) (l : list A) (l' : list B) :
  Forall2 R l l' -> List.length l = List.length l'.
Proof. induction 1; simpl; congruence. Qed.

(** What [histogram] appends to a record that holds no bucket and no
    total yet. *)
Lemma histogram_shape (hist_soup : hist_page) (not_found : value) (d d' : dict) :
  (forall k, In k ("Total_ratings" :: bucket_keys) -> dict_get k d = None) ->
  histogram hist_soup not_found d = Ok d' ->
  exists counts,
    Forall2 (fun r c => bar_count r = Ok c) (hp_bars hist_soup) counts
    /\ (List.length counts <= 10)%nat
    /\ d' = (d ++ bucket_fields (bucket_counts counts)
               ++ [("Total_ratings", VInt (sum counts))])%list.
Proof.
  intros Hfresh Hrun. unfold histogram in Hrun.
  assert (Hbucket : forall j, (0 <= j < 10)%nat ->
            dict_get (nth j bucket_keys "") d = None).
  { intros j Hj. apply Hfresh. right. apply nth_In. exact (proj2 Hj). }
  assert (Htotal : forall counts,
            dict_set "Total_ratings" (VInt (sum counts))
              (d ++ bucket_fields (bucket_counts counts))%list
            = (d ++ bucket_fields (bucket_counts counts)
                 ++ [("Total_ratings", VInt (sum counts))])%list).
  { intros counts. rewrite dict_set_fresh, <- app_assoc; [reflexivity|].
    rewrite dict_get_app, (Hfresh _ (or_introl eq_refl)).
    unfold bucket_fields.
    assert (G : forall ks vs, ~ In "Total_ratings" ks ->
              dict_get "Total_ratings" (combine ks vs) = None).
    { induction ks as [|k ks IHks]; intros vs Hk; [reflexivity|].
      destruct vs as [|v vs]; [reflexivity|]. cbn [combine dict_get].
      destruct (String.eqb "Total_ratings" k) eqn:E.
      - apply String.eqb_eq in E. subst k. exfalso. apply Hk. left. reflexivity.
      - apply IHks. intros Hin. apply Hk. right. exact Hin. }
    apply G. exact total_not_bucket. }
  destruct (hp_bars hist_soup) as [|r rest] eqn:Hbars.
  - cbn [List.length Nat.eqb negb] in Hrun.
    rewrite histogram_zeros_eq in Hrun.
    exists []. split; [constructor|]. split; [simpl; lia|].
    rewrite <- (Htotal []).
    set (z := fold_left (fun acc k => dict_set k (VInt 0) acc) bucket_keys d) in Hrun.
    cbn [bind] in Hrun. injection Hrun as <-.
    f_equal. unfold z, bucket_counts, bucket_fields.
    assert (G : forall ks d0, NoDup ks ->
              (forall k, In k ks -> dict_get k d0 = None) ->
              fold_left (fun acc k => dict_set k (VInt 0) acc) ks d0
              = (d0 ++ combine ks (map VInt (repeat 0 (List.length ks))))%list).
    { induction ks as [|k ks IHks]; intros d0 Hnd Hd0; simpl.
      - rewrite app_nil_r. reflexivity.
      - inversion Hnd as [|? ? Hk Hnd']; subst.
        rewrite IHks.
        + rewrite dict_set_fresh by (apply Hd0; left; reflexivity).
          rewrite <- app_assoc. reflexivity.
        + exact Hnd'.
        + intros k' Hk'. rewrite dict_get_set_other.
          * apply Hd0. right. exact Hk'.
          * apply String.eqb_neq. intros ->. exact (Hk Hk'). }
    apply (G bucket_keys d bucket_keys_NoDup).
    intros k Hk. apply Hfresh. right. exact Hk.
  - cbn [List.length Nat.eqb negb] in Hrun.
    destruct (histogram_bars 0 (r :: rest) not_found d 0) as [[fd tot]|e] eqn:Hloop;
      cbn [bind] in Hrun; [|discriminate].
    injection Hrun as <-.
    destruct (histogram_bars_shape (r :: rest) 0 not_found d fd 0 tot
                ltac:(lia) Hbucket Hloop) as [counts [Hc [Hlen [Hd Ht]]]].
    exists counts. split; [exact Hc|].
    pose proof (Forall2_length_eq _ _ _ Hc) as Hl.
    split; [lia|].
    rewrite <- Htotal. subst fd tot.
    destruct counts as [|c counts]; [simpl in Hl; discriminate Hl|].
    reflexivity.
Qed.


Lemma dict_get_combine_none (k : string) (ks : list string) :
  forall vs, ~ In k ks -> dict_get k (combine ks vs) = None.
Proof.
  induction ks as [|k0 ks IH]; intros vs Hk; [reflexivity|].
  destruct vs as [|v vs]; [reflexivity|]. cbn [combine dict_get].
  destruct (String.eqb k k0) eqn:E.
  - apply String.eqb_eq in E. subst k0. exfalso. apply Hk. left. reflexivity.
  - apply IH. intros Hin. apply Hk. right. exact Hin.
Qed.

Lemma dict_get_combine_nth (ks : list string) :
  forall (vs : list value) (i : nat),
    NoDup ks -> (i < List.length ks)%nat ->
    dict_get (nth i ks "") (combine ks vs) = nth_error vs i.
Proof.
  induction ks as [|k ks IH]; intros vs i Hnd Hi; simpl in Hi; [lia|].
  inversion Hnd as [|? ? Hk Hnd']; subst.
  destruct vs as [|v vs].
  - destruct i; reflexivity.
  - destruct i as [|i]; cbn [nth combine dict_get nth_error].
    + rewrite String.eqb_refl. reflexivity.
    + assert (E : String.eqb (nth i ks "") k = false).
      { apply String.eqb_neq. intros <-. apply Hk. apply nth_In. lia. }
      rewrite E. apply IH; [exact Hnd' | lia].
Qed.

Lemma keys_combine (ks : list string) :
  forall vs : list value, keys (combine ks vs) = firstn (List.length vs) ks.
Proof.
  induction ks as [|k ks IH]; intros vs.
  - destruct vs; reflexivity.
  - destruct vs as [|v vs]; [reflexivity|].
    cbn [combine keys map fst List.length firstn]. f_equal. apply IH.
Qed.

Lemma bucket_counts_length (counts : list Z) :
  List.length (bucket_counts counts) = bucket_count (List.length counts).
Proof. destruct counts; reflexivity. Qed.

(** A record of [scrape_film], field by field: the head fields, one bucket
    per bar (ten zeros without bars), the total and the URL of the film. *)
Lemma scrape_film_shape (get : web) (film_html : li_tag) (not_found : value)
    (film_dict : dict) :
  scrape_film get film_html not_found = Ok film_dict ->
  exists film_url filmget title release_year director stats hist
         watches list_appearances likes counts,
    film_url_of film_html = Ok film_url
    /\ get film_url = Ok filmget
    /\ fp_col17_h1 (as_film (content filmget)) = Some (Some title)
    /\ release_year_of (as_film (content filmget)) = Ok release_year
    /\ fp_twitter_data1 (as_film (content filmget)) = Some (Some director)
    /\ stats_response_of get film_html = Ok stats
    /\ count_of_title (sp_watched (as_stats (content stats))) = Ok watches
    /\ count_of_title (sp_list (as_stats (content stats))) = Ok list_appearances
    /\ count_of_title (sp_like (as_stats (content stats))) = Ok likes
    /\ histogram_response_of get film_html = Ok hist
    /\ Forall2 (fun r c => bar_count r = Ok c)
         (hp_bars (as_hist (content hist))) counts
    /\ (List.length counts <= 10)%nat
    /\ film_dict
       = (head_fields film_html (as_film (content filmget)) not_found title
            release_year director watches list_appearances likes
            (fans_of (as_hist (content hist)))
          ++ bucket_fields (bucket_counts counts)
          ++ [ ("Total_ratings", VInt (sum counts));
               ("Film_URL", VStr film_url) ])%list.
Proof.
  intros H. unfold scrape_film in H.
  run_step H. run_step H.
  match type of H with
  | bind (get ?u) _ = _ => set (film_url := u) in *
  end.
  run_step H.
  match goal with
  | E : get film_url = Ok ?a |- _ => set (film_soup := as_film (content a)) in *
  end.
  do 2 run_step H.
  do 3 run_step H.
  run_step H.
  do 6 run_step H.
  run_step H.
  injection H as <-.
  repeat match goal with
         | E : ?o = Some _, E' : _ = Some ?o |- _ => subst o
         end.
  match goal with
  | E : languages_of film_soup not_found = (?a, ?b),
    Hh : histogram _ _ ?d0 = Ok _,
    Et : fp_col17_h1 film_soup = Some (Some ?title),
    Ey : release_year_of film_soup = Ok ?ry,
    Ed : fp_twitter_data1 film_soup = Some (Some ?dir),
    Ew : count_of_title (sp_watched _) = Ok ?w,
    El : count_of_title (sp_list _) = Ok ?la,
    Ek : count_of_title (sp_like _) = Ok ?lk,
    Eh : get (_ ++ _ ++ "/rating-histogram/") = Ok ?hist |- _ =>
      assert (Hhead : d0 = head_fields film_html film_soup not_found title ry dir
                              w la lk (fans_of (as_hist (content hist))))
        by (unfold head_fields; rewrite E; reflexivity);
      rewrite Hhead in Hh;
      assert (Hfresh : forall k, In k ("Total_ratings" :: bucket_keys) ->
                dict_get k (head_fields film_html film_soup not_found title ry dir
                              w la lk (fans_of (as_hist (content hist)))) = None)
        by (intros k Hk; unfold bucket_keys in Hk; simpl in Hk;
            repeat (destruct Hk as [<-|Hk]; [reflexivity|]); contradiction);
      destruct (histogram_shape _ _ _ _ Hfresh Hh) as [counts [Hc [Hlen Hd]]]
  end.
  do 11 eexists.
  split; [unfold film_url_of;
          match goal with E : li_div_target_link film_html = _ |- _ => rewrite E end;
          reflexivity|].
  split; [eassumption|].
  split; [eassumption|].
  split; [eassumption|].
  split; [eassumption|].
  split.
  { unfold stats_response_of, film_url_of, stats_url.
    match goal with E : li_div_target_link film_html = _ |- _ => rewrite E end.
    cbn [bind of_option]. fold film_url.
    match goal with E : index_m2 _ = _ |- _ => rewrite E end.
    cbn [bind]. eassumption. }
  split; [eassumption|].
  split; [eassumption|].
  split; [eassumption|].
  split.
  { unfold histogram_response_of, film_url_of, histogram_url.
    match goal with E : li_div_target_link film_html = _ |- _ => rewrite E end.
    cbn [bind of_option]. fold film_url.
    match goal with E : index_m2 _ = _ |- _ => rewrite E end.
    cbn [bind]. eassumption. }
  split; [exact Hc|].
  split; [exact Hlen|].
  rewrite Hd. rewrite dict_set_fresh.
  - rewrite <- !app_assoc. reflexivity.
  - rewrite !dict_get_app.
    unfold bucket_fields.
    rewrite dict_get_combine_none by exact film_url_not_bucket.
    reflexivity.
Qed.


(** X2. The columns of a record: the 17 head fields, then the keys of the
    rating scale for as many buckets as the histogram has bars (all 10
    when it has none), then Total_ratings and Film_URL. *)
Theorem record_columns
    (get : web) (film_html : li_tag) (not_found : value) (film_dict : dict) :
  scrape_film get film_html not_found = Ok film_dict ->
  exists hist,
    histogram_response_of get film_html = Ok hist
    /\ keys film_dict
       = (head_keys
          ++ firstn (bucket_count (List.length (hp_bars (as_hist (content hist)))))
               bucket_keys
          ++ ["Total_ratings"; "Film_URL"])%list.
Proof.
  intros H.
  destruct (scrape_film_shape _ _ _ _ H)
    as (film_url & filmget & title & ry & director & stats & hist & w & la & lk
        & counts & _ & _ & _ & _ & _ & _ & _ & _ & _ & Hhist & Hc & _ & ->).
  exists hist. split; [exact Hhist|].
  rewrite !keys_app. unfold bucket_fields.
  rewrite keys_combine, length_map, bucket_counts_length.
  rewrite <- (Forall2_length_eq _ _ _ Hc). reflexivity.
Qed.

Lemma record_columns_witness :
  exists hist,
    histogram_response_of parasite_site parasite_li = Ok hist
    /\ exists film_dict,
         scrape_film parasite_site parasite_li VNone = Ok film_dict
         /\ keys film_dict
            = (head_keys
               ++ firstn (bucket_count (List.length (hp_bars (as_hist (content hist)))))
                    bucket_keys
               ++ ["Total_ratings"; "Film_URL"])%list.
Proof.
  destruct (scrape_film parasite_site parasite_li VNone) as [film_dict|e] eqn:E;
    [|vm_compute in E; discriminate E].
  destruct (record_columns _ _ _ _ E) as [hist [Hhist Hkeys]].
  exists hist. split; [exact Hhist|].
  exists film_dict. split; [reflexivity | exact Hkeys].
Defined.

Lemma sum_nonneg (counts : list Z) :
  Forall (fun c => 0 <= c) counts -> 0 <= sum counts.
Proof.
  induction 1 as [|c counts Hc _ IH]; simpl; lia.
Qed.

Lemma dict_get_combine_in (ks : list string) (k : string) (v : value) :
  forall vs, dict_get k (combine ks vs) = Some v -> In v vs.
Proof.
  induction ks as [|k0 ks IH]; intros vs H; [discriminate H|].
  destruct vs as [|v0 vs]; [discriminate H|].
  cbn [combine dict_get] in H.
  destruct (String.eqb k k0).
  - injection H as <-. left. reflexivity.
  - right. exact (IH vs H).
Qed.

Lemma bucket_counts_nonneg (counts : list Z) :
  Forall (fun c => 0 <= c) counts -> Forall (fun c => 0 <= c) (bucket_counts counts).
Proof.
  intros H. destruct counts; [|exact H].
  unfold bucket_counts. apply Forall_forall. intros c Hc.
  apply repeat_spec in Hc. lia.
Qed.

Lemma bar_counts_nonneg (bars : list string) (counts : list Z) :
  Forall2 (fun r c => bar_count r = Ok c) bars counts ->
  Forall (fun c => 0 <= c) counts.
Proof.
  induction 1 as [|r c bars counts Hr _ IH]; constructor.
  - exact (bar_count_nonneg r c Hr).
  - exact IH.
Qed.

(** X3. No count of a record is negative: Watches, List_appearances,
    Likes, every bucket of the histogram and Total_ratings hold integers
    that are at least 0. *)
Theorem record_counts_nonnegative
    (get : web) (film_html : li_tag) (not_found : value) (film_dict : dict)
    (k : string) (v : value) :
  scrape_film get film_html not_found = Ok film_dict ->
  In k (["Watches"; "List_appearances"; "Likes"; "Total_ratings"] ++ bucket_keys)%list ->
  dict_get k film_dict = Some v ->
  exists n, v = VInt n /\ 0 <= n.
Proof.
  intros H Hk Hv.
  destruct (scrape_film_shape _ _ _ _ H)
    as (film_url & filmget & title & ry & director & stats & hist & w & la & lk
        & counts & _ & _ & _ & _ & _ & _ & Hw & Hla & Hlk & _ & Hc & _ & ->).
  pose proof (bar_counts_nonneg _ _ Hc) as Hcounts.
  rewrite !dict_get_app in Hv.
  apply in_app_or in Hk. destruct Hk as [Hk|Hk].
  - simpl in Hk.
    destruct Hk as [<-|[<-|[<-|[<-|[]]]]].
    + injection Hv as <-. eexists. split; [reflexivity|].
      exact (count_of_title_nonneg _ _ Hw).
    + injection Hv as <-. eexists. split; [reflexivity|].
      exact (count_of_title_nonneg _ _ Hla).
    + injection Hv as <-. eexists. split; [reflexivity|].
      exact (count_of_title_nonneg _ _ Hlk).
    + unfold bucket_fields in Hv.
      rewrite dict_get_combine_none in Hv by exact total_not_bucket.
      injection Hv as <-. eexists. split; [reflexivity|].
      apply sum_nonneg. exact Hcounts.
  - assert (Hhead : forall T R D C A O G U N L S E X W I K F,
              dict_get k
                [ ("Film_title", T); ("Release_year", R); ("Director", D);
                  ("Cast", C); ("Average_rating", A); ("Owner_rating", O);
                  ("Genres", G); ("Runtime", U); ("Countries", N);
                  ("Original_language", L); ("Spoken_languages", S);
                  ("Description", E); ("Studios", X); ("Watches", W);
                  ("List_appearances", I); ("Likes", K); ("Fans", F) ] = None).
    { intros. unfold bucket_keys in Hk. simpl in Hk.
      repeat (destruct Hk as [<-|Hk]; [reflexivity|]). contradiction. }
    unfold head_fields in Hv. rewrite Hhead in Hv.
    destruct (dict_get k (bucket_fields (bucket_counts counts))) as [v'|] eqn:Hb.
    + injection Hv as <-. unfold bucket_fields in Hb.
      apply dict_get_combine_in in Hb. apply in_map_iff in Hb.
      destruct Hb as [c [<- Hin]]. exists c. split; [reflexivity|].
      pose proof (bucket_counts_nonneg counts Hcounts) as Hall.
      rewrite Forall_forall in Hall. exact (Hall c Hin).
    + exfalso. unfold bucket_keys in Hk. simpl in Hk.
      repeat (destruct Hk as [<-|Hk]; [discriminate Hv|]). contradiction.
Qed.

Lemma record_counts_nonnegative_witness :
  exists film_dict n,
    scrape_film parasite_site parasite_li VNone = Ok film_dict
    /\ dict_get "Watches" film_dict = Some (VInt n)
    /\ 0 <= n.
Proof.
  destruct (scrape_film parasite_site parasite_li VNone) as [film_dict|e] eqn:E;
    [|vm_compute in E; discriminate E].
  assert (Hv : dict_get "Watches" film_dict = Some (VInt 3482)).
  { assert (E' := E). vm_compute in E'. injection E' as <-. reflexivity. }
  destruct (record_counts_nonnegative parasite_site parasite_li VNone film_dict
              "Watches" (VInt 3482) E (or_introl eq_refl) Hv) as [n [Hn Hpos]].
  exists film_dict, n. split; [reflexivity|]. split; [|exact Hpos].
  rewrite Hv, Hn. reflexivity.
Defined.

(** X4. The count of the bar number [i] of the histogram is stored under
    the key of the increment number [i] of the rating scale: the first bar
    under the half star, the last of ten under the five stars. *)
Theorem bars_fill_buckets_in_order
    (get : web) (film_html : li_tag) (not_found : value) (film_dict : dict)
    (hist : response) (i : nat) (r : string) :
  scrape_film get film_html not_found = Ok film_dict ->
  histogram_response_of get film_html = Ok hist ->
  nth_error (hp_bars (as_hist (content hist))) i = Some r ->
  exists c,
    bar_count r = Ok c
    /\ dict_get (nth i bucket_keys "") film_dict = Some (VInt c).
Proof.
  intros H Hhist Hr.
  destruct (scrape_film_shape _ _ _ _ H)
    as (film_url & filmget & title & ry & director & stats & hist' & w & la & lk
        & counts & _ & _ & _ & _ & _ & _ & _ & _ & _ & Hhist' & Hc & Hlen & ->).
  rewrite Hhist in Hhist'. injection Hhist' as <-.
  assert (Hi : (i < List.length counts)%nat).
  { rewrite <- (Forall2_length_eq _ _ _ Hc). apply nth_error_Some.
    rewrite Hr. discriminate. }
  destruct (nth_error counts i) as [c|] eqn:Hci;
    [|apply nth_error_None in Hci; lia].
  exists c. split.
  - clear - Hc Hr Hci. revert i Hr Hci.
    induction Hc as [|r0 c0 bars counts Hr0 _ IH]; intros i Hr Hci.
    + destruct i; discriminate Hr.
    + destruct i as [|i]; simpl in Hr, Hci.
      * injection Hr as <-. injection Hci as <-. exact Hr0.
      * exact (IH i Hr Hci).
  - assert (Hkey : In (nth i bucket_keys "") bucket_keys)
      by (apply nth_In; unfold bucket_keys; simpl; lia).
    rewrite !dict_get_app.
    assert (Hhead : forall T R D C A O G U N L S E X W I K F,
              dict_get (nth i bucket_keys "")
                [ ("Film_title", T); ("Release_year", R); ("Director", D);
                  ("Cast", C); ("Average_rating", A); ("Owner_rating", O);
                  ("Genres", G); ("Runtime", U); ("Countries", N);
                  ("Original_language", L); ("Spoken_languages", S);
                  ("Description", E); ("Studios", X); ("Watches", W);
                  ("List_appearances", I); ("Likes", K); ("Fans", F) ] = None).
    { intros. revert Hkey. generalize (nth i bucket_keys "").
      intros k Hk. unfold bucket_keys in Hk. simpl in Hk.
      repeat (destruct Hk as [<-|Hk]; [reflexivity|]). contradiction. }
    unfold head_fields. rewrite Hhead.
    unfold bucket_fields.
    rewrite dict_get_combine_nth;
      [|exact bucket_keys_NoDup | unfold bucket_keys; simpl; lia].
    destruct counts as [|c0 counts]; [simpl in Hi; lia|].
    unfold bucket_counts. rewrite nth_error_map, Hci. reflexivity.
Qed.

Lemma bars_fill_buckets_in_order_witness :
  exists c,
    bar_count "3 ratings (20%)" = Ok c
    /\ exists film_dict,
         scrape_film parasite_site parasite_li VNone = Ok film_dict
         /\ dict_get (nth 4 bucket_keys "") film_dict = Some (VInt c).
Proof.
  destruct (scrape_film parasite_site parasite_li VNone) as [film_dict|e] eqn:E;
    [|vm_compute in E; discriminate E].
  destruct (bars_fill_buckets_in_order parasite_site parasite_li VNone film_dict
              (ok_response (hist_document parasite_hist)) 4 "3 ratings (20%)" E)
    as [c [Hc Hd]]; [reflexivity | reflexivity |].
  exists c. split; [exact Hc|].
  exists film_dict. split; [reflexivity | exact Hd].
Defined.


(** ** The fields of the film page *)

Lemma existsb_eqb_In (x : string) (seen : list string) :
  existsb (String.eqb x) seen = true <-> In x seen.
Proof.
  rewrite existsb_exists. split.
  - intros [y [Hy E]]. apply String.eqb_eq in E. subst y. exact Hy.
  - intros H. exists x. split; [exact H | apply String.eqb_refl].
Qed.

Lemma unique_first_In (l : list string) :
  forall seen x, In x (unique_first seen l) <-> In x l /\ ~ In x seen.
Proof.
  induction l as [|a l IH]; intros seen x; simpl.
  - tauto.
  - destruct (existsb (String.eqb a) seen) eqn:E.
    + apply existsb_eqb_In in E. rewrite IH. split.
      * tauto.
      * intros [[<-|Hx] Hn]; [contradiction | tauto].
    + assert (Ha : ~ In a seen).
      { intros H. apply existsb_eqb_In in H. congruence. }
      simpl. rewrite IH. simpl. split.
      * intros [<-|[Hx Hn]]; [tauto|]. split; [tauto|]. intros H. apply Hn. tauto.
      * intros [[<-|Hx] Hn]; [tauto|].
        destruct (string_dec a x) as [->|Hne]; [tauto|].
        right. split; [exact Hx|]. intros [H|H]; [exact (Hne H) | exact (Hn H)].
Qed.

Lemma unique_first_NoDup (l : list string) :
  forall seen, NoDup (unique_first seen l).
Proof.
  induction l as [|a l IH]; intros seen; simpl.
  - constructor.
  - destruct (existsb (String.eqb a) seen); [apply IH|].
    constructor; [|apply IH].
    rewrite unique_first_In. simpl. tauto.
Qed.

(** X5. When the languages of a film are found, Spoken_languages holds
    each language of the details tab exactly once, and its first element is
    Original_language. *)
Theorem spoken_languages_unique
    (film_soup : film_page) (not_found : value)
    (original : string) (spoken : list string) :
  languages_of film_soup not_found = (VStr original, VList spoken) ->
  NoDup spoken
  /\ hd_error spoken = Some original
  /\ exists div languages,
       fp_tab_details film_soup = Some div
       /\ all_contents0 (anchors_matching "language" div) = Ok languages
       /\ forall x, In x spoken <-> In x (map (replace nbsp " ") languages).
Proof.
  unfold languages_of. intros H.
  destruct (fp_tab_details film_soup) as [div|] eqn:Hdiv;
    cbn [of_option bind try_except] in H.
  - destruct (all_contents0 (anchors_matching "language" div)) as [l|e] eqn:Hall;
      cbn [bind try_except] in H.
    + destruct (map (replace nbsp " ") l) as [|a languages] eqn:Hl;
        cbn [index_0 bind try_except] in H.
      * injection H as H1 H2. rewrite H1 in H2. discriminate H2.
      * injection H as <- <-.
        change (a :: unique_first [a] languages)
          with (unique_first [] (a :: languages)).
        split; [apply unique_first_NoDup|].
        split; [reflexivity|].
        exists div, l. split; [reflexivity|]. split; [exact Hall|].
        intros x. rewrite Hl, unique_first_In. simpl. tauto.
    + injection H as H1 H2. rewrite H1 in H2. discriminate H2.
  - injection H as H1 H2. rewrite H1 in H2. discriminate H2.
Qed.

Lemma spoken_languages_unique_witness :
  NoDup ["Korean"] /\ hd_error ["Korean"] = Some "Korean".
Proof.
  destruct (spoken_languages_unique parasite_page VNone "Korean" ["Korean"])
    as [Hnd [Hhd _]]; [reflexivity|].
  split; [exact Hnd | exact Hhd].
Defined.

(** X6. What a record never holds as a value: with the sentinel of the
    output format, Release_year is never 0, Director is never the empty
    text, Countries and Studios are never an empty list, and Cast never
    lists the 'Show All…' link. *)
Theorem record_values_normalized
    (get : web) (film_html : li_tag) (output_file_extension : string)
    (film_dict : dict) :
  scrape_film get film_html (sentinel_of output_file_extension) = Ok film_dict ->
  dict_get "Release_year" film_dict <> Some (VInt 0)
  /\ dict_get "Director" film_dict <> Some (VStr "")
  /\ dict_get "Countries" film_dict <> Some (VList [])
  /\ dict_get "Studios" film_dict <> Some (VList [])
  /\ forall cast, dict_get "Cast" film_dict = Some (VList cast) ->
                  ~ In "Show All…" cast.
Proof.
  intros H.
  destruct (scrape_film_shape _ _ _ _ H)
    as (film_url & filmget & title & ry & director & stats & hist & w & la & lk
        & counts & _ & _ & _ & _ & _ & _ & _ & _ & _ & _ & _ & _ & ->).
  set (nf := sentinel_of output_file_extension).
  assert (Hnf : nf = VFloat nan \/ nf = VNone).
  { unfold nf, sentinel_of.
    destruct (String.eqb output_file_extension ".csv"); [left | right]; reflexivity. }
  assert (Hdetails : forall word fs, details_of word fs nf <> VList []).
  { intros word fs. unfold details_of.
    destruct (fp_tab_details fs) as [div|]; cbn [of_option bind try_except].
    - destruct (all_contents0 (anchors_matching word div)) as [[|x l]|e];
        cbn [bind try_except]; destruct Hnf as [-> | ->]; discriminate.
    - destruct Hnf as [-> | ->]; discriminate. }
  rewrite !dict_get_app. unfold head_fields.
  repeat split.
  - cbn [dict_get String.eqb Ascii.eqb Bool.eqb].
    destruct (ry =? 0) eqn:E.
    + destruct Hnf as [-> | ->]; discriminate.
    + apply Z.eqb_neq in E. intros Hv. injection Hv as Hv. exact (E Hv).
  - cbn [dict_get String.eqb Ascii.eqb Bool.eqb].
    destruct (String.eqb director "") eqn:E.
    + destruct Hnf as [-> | ->]; discriminate.
    + apply String.eqb_neq in E. intros Hv. injection Hv as Hv. exact (E Hv).
  - cbn [dict_get String.eqb Ascii.eqb Bool.eqb].
    intros Hv. injection Hv as Hv. exact (Hdetails _ _ Hv).
  - cbn [dict_get String.eqb Ascii.eqb Bool.eqb].
    intros Hv. injection Hv as Hv. exact (Hdetails _ _ Hv).
  - cbn [dict_get String.eqb Ascii.eqb Bool.eqb].
    intros cast Hv. injection Hv as Hv. revert Hv. unfold cast_of.
    destruct (fp_tab_cast (as_film (content filmget))) as [div|];
      cbn [of_option bind try_except].
    + destruct (all_contents0 div) as [l|e]; cbn [bind try_except].
      * intros Hv. injection Hv as <-. intros Hin.
        apply filter_In in Hin. destruct Hin as [_ Hin].
        rewrite String.eqb_refl in Hin. discriminate Hin.
      * destruct Hnf as [-> | ->]; discriminate.
    + destruct Hnf as [-> | ->]; discriminate.
Qed.

Lemma record_values_normalized_witness :
  exists film_dict,
    scrape_film parasite_site parasite_li (sentinel_of ".csv") = Ok film_dict
    /\ dict_get "Release_year" film_dict <> Some (VInt 0)
    /\ dict_get "Countries" film_dict <> Some (VList []).
Proof.
  destruct (scrape_film parasite_site parasite_li (sentinel_of ".csv"))
    as [film_dict|e] eqn:E; [|vm_compute in E; discriminate E].
  destruct (record_values_normalized parasite_site parasite_li ".csv" film_dict E)
    as (Hy & _ & Hc & _).
  exists film_dict. split; [reflexivity|]. split; [exact Hy | exact Hc].
Defined.


(** ** The URLs of the secondary resources *)

Lemma split_chars_last (sep : ascii) (l : chars) :
  forall cur, ~ In sep l -> split_chars sep cur l = [str_of (rev cur ++ l)%list].
Proof.
  induction l as [|c l IH]; intros cur Hl; simpl.
  - rewrite app_nil_r. reflexivity.
  - destruct (Ascii.eqb c sep) eqn:E.
    + apply Ascii.eqb_eq in E. subst c. exfalso. apply Hl. left. reflexivity.
    + rewrite IH by (intros H; apply Hl; right; exact H).
      simpl. rewrite <- app_assoc. reflexivity.
Qed.

Lemma split_chars_segment (sep : ascii) (a : chars) :
  forall cur l, ~ In sep a ->
  split_chars sep cur (a ++ sep :: l)%list
  = str_of (rev cur ++ a)%list :: split_chars sep [] l.
Proof.
  induction a as [|c a IH]; intros cur l Ha; simpl.
  - rewrite Ascii.eqb_refl, app_nil_r. reflexivity.
  - destruct (Ascii.eqb c sep) eqn:E.
    + apply Ascii.eqb_eq in E. subst c. exfalso. apply Ha. left. reflexivity.
    + rewrite IH by (intros H; apply Ha; right; exact H).
      simpl. rewrite <- app_assoc. reflexivity.
Qed.

Lemma index_m2_cons {A} (x a : A) (l : list A) :
  index_m2 l = Ok a -> index_m2 (x :: l) = Ok a.
Proof.
  unfold index_m2. simpl.
  destruct (rev l) as [|y [|z r]]; try discriminate.
  intros H. exact H.
Qed.

(** The last but one segment of a path. *)
Lemma index_m2_split (sep : ascii) (a b : chars) (pre : chars) :
  forall cur, ~ In sep a -> ~ In sep b ->
  index_m2 (split_chars sep cur (pre ++ sep :: a ++ sep :: b)%list) = Ok (str_of a).
Proof.
  induction pre as [|c pre IH]; intros cur Ha Hb; simpl.
  - rewrite Ascii.eqb_refl.
    rewrite (split_chars_segment sep a [] b Ha), (split_chars_last sep b [] Hb).
    reflexivity.
  - destruct (Ascii.eqb c sep).
    + apply index_m2_cons. apply IH; assumption.
    + apply IH; assumption.
Qed.

Lemma index_m2_path (prefix a b : string) :
  ~ In "/"%char (chars_of a) -> ~ In "/"%char (chars_of b) ->
  index_m2 (split "/" (prefix ++ "/" ++ a ++ "/" ++ b)) = Ok a.
Proof.
  intros Ha Hb. unfold split.
  rewrite !chars_of_append.
  change (chars_of "/") with ["/"%char]. cbn [app].
  rewrite (index_m2_split "/" (chars_of a) (chars_of b) (chars_of prefix) [] Ha Hb).
  rewrite str_of_chars_of. reflexivity.
Qed.

Lemma slice_from_1 (c : ascii) (s : string) : slice_from 1 (String c s) = s.
Proof. unfold slice_from. simpl. apply str_of_chars_of. Qed.

(** X7. The stats and histogram fragments are fetched for the slug of the
    film link: for the link [/film/<slug>/] the URLs are those of [<slug>].
    Without the final slash of the link the slug is lost, and the URLs are
    those of the segment before it, [film]. *)
Theorem secondary_urls_from_slug (film_html : li_tag) (slug : string) :
  ~ In "/"%char (chars_of slug) ->
  (li_div_target_link film_html = Some (Some ("/film/" ++ slug ++ "/")) ->
   film_url_of film_html = Ok ("https://letterboxd.com/film/" ++ slug ++ "/")
   /\ stats_url ("https://letterboxd.com/film/" ++ slug ++ "/")
      = Ok ("https://letterboxd.com/csi/film/" ++ slug ++ "/stats/")
   /\ histogram_url ("https://letterboxd.com/film/" ++ slug ++ "/")
      = Ok ("https://letterboxd.com/csi/film/" ++ slug ++ "/rating-histogram/"))
  /\ (li_div_target_link film_html = Some (Some ("/film/" ++ slug)) ->
      film_url_of film_html = Ok ("https://letterboxd.com/film/" ++ slug)
      /\ stats_url ("https://letterboxd.com/film/" ++ slug)
         = Ok "https://letterboxd.com/csi/film/film/stats/").
Proof.
  intros Hslug.
  assert (Hempty : ~ In "/"%char (chars_of "")) by (intros []).
  assert (Hfilm : ~ In "/"%char (chars_of "film"))
    by (simpl; intuition discriminate).
  split; intros Hlink.
  - assert (Hm : index_m2 (split "/" ("https://letterboxd.com/film/" ++ slug ++ "/"))
                 = Ok slug).
    { pose proof (index_m2_path "https://letterboxd.com/film" slug "" Hslug Hempty)
        as H.
      exact H. }
    split.
    + unfold film_url_of. rewrite Hlink. cbn [of_option bind].
      change ("/film/" ++ slug ++ "/") with (String "/" ("film/" ++ slug ++ "/")).
      rewrite slice_from_1. reflexivity.
    + unfold stats_url, histogram_url. rewrite Hm. split; reflexivity.
  - assert (Hm : index_m2 (split "/" ("https://letterboxd.com/film/" ++ slug))
                 = Ok "film").
    { pose proof (index_m2_path "https://letterboxd.com" "film" slug Hfilm Hslug)
        as H.
      exact H. }
    split.
    + unfold film_url_of. rewrite Hlink. cbn [of_option bind].
      change ("/film/" ++ slug) with (String "/" ("film/" ++ slug)).
      rewrite slice_from_1. reflexivity.
    + unfold stats_url. rewrite Hm. reflexivity.
Qed.

Lemma secondary_urls_from_slug_witness :
  stats_url "https://letterboxd.com/film/parasite-2019/" = Ok parasite_stats_url
  /\ histogram_url "https://letterboxd.com/film/parasite-2019/" = Ok parasite_hist_url.
Proof.
  destruct (secondary_urls_from_slug parasite_li "parasite-2019") as [H _].
  - vm_compute. intuition discriminate.
  - destruct (H eq_refl) as (_ & Hs & Hh).
    split; [exact Hs | exact Hh].
Defined.

(** ** The records of a page *)

Lemma scrape_films_flat_map (get : web) (not_found : value) (concat : bool)
    (og_list_url : string) (films : list li_tag) :
  forall page_films,
    scrape_films get films not_found concat og_list_url page_films
    = (page_films ++ flat_map (kept_record get not_found concat og_list_url) films)%list.
Proof.
  induction films as [|film rest IH]; intros page_films; cbn [scrape_films flat_map].
  - rewrite app_nil_r. reflexivity.
  - rewrite IH. unfold kept_record at 2.
    destruct (scrape_film get film not_found) as [film_dict|e];
      cbn [bind try_except].
    + rewrite <- app_assoc. reflexivity.
    + reflexivity.
Qed.

(** X8. [scrape_page] raises only when the fetch of the page raises.  A
    page that answers with another status than 200 gives no record and no
    document; otherwise the page gives its document and, in the order of
    its items, the record of each item whose scraping does not raise. *)
Theorem scrape_page_records
    (get : web) (list_url og_list_url output_file_extension list_type : string)
    (quiet concat : bool) :
  scrape_page get list_url og_list_url output_file_extension list_type quiet concat
  = match get list_url with
    | Raise e => Raise e
    | Ok resp =>
        if status_code resp =? 200 then
          Ok (flat_map (kept_record get (sentinel_of output_file_extension)
                          concat og_list_url)
                (page_items (content resp)),
              Some (content resp))
        else Ok ([], None)
    end.
Proof.
  unfold scrape_page, page_items.
  destruct (get list_url) as [resp|e]; cbn [bind]; [|reflexivity].
  destruct (status_code resp =? 200); cbn [negb]; [|reflexivity].
  destruct (or_else _ _) as [[|film films]|]; try reflexivity.
  rewrite scrape_films_flat_map. reflexivity.
Qed.




(** ** The crawls *)




Section FullCrawlRecords.

Variable get : web.
Variables output_file_extension list_type : string.
Variables quiet concat : bool.

Local Abbreviation follow fuel url films :=
  (follow_next fuel get url output_file_extension list_type quiet concat films).
Local Abbreviation turn url :=
  (turn_at get url output_file_extension list_type quiet concat).
Local Abbreviation after k url :=
  (url_after k get url output_file_extension list_type quiet concat).
Local Abbreviation films_of k url :=
  (chain_films k get url output_file_extension list_type quiet concat).

Lemma follow_next_chain (k : nat) :
  forall list_url u, after k list_url = Some u ->
  forall fuel list_films,
    follow (k + fuel) list_url list_films
    = follow fuel u (list_films ++ films_of k list_url)%list.
Proof.
  induction k as [|k IH]; intros list_url u Hk fuel list_films.
  - injection Hk as <-. cbn [chain_films Nat.add]. rewrite app_nil_r. reflexivity.
  - cbn [url_after] in Hk. cbn [Nat.add chain_films].
    rewrite follow_next_turn.
    destruct (turn list_url) as [pf|pf next_url|e]; try discriminate Hk.
    rewrite (IH next_url u Hk), <- app_assoc. reflexivity.
Qed.

(** X11. A full crawl whose chain of next pages ends, after [k] pages, on a
    page without a next page returns the records of the pages in the order
    of the chain, whatever bound above [k] the loop is given. *)
Theorem full_crawl_records
    (k fuel : nat) (list_url u : string) (last_films list_films : list dict) :
  after k list_url = Some u ->
  turn u = Last last_films ->
  (k < fuel)%nat ->
  follow fuel list_url list_films
  = Some (Ok (list_films ++ films_of k list_url ++ last_films)%list).
Proof.
  intros Hk Hlast Hfuel.
  replace fuel with (k + S (fuel - S k))%nat by lia.
  rewrite (follow_next_chain k list_url u Hk), follow_next_turn, Hlast.
  rewrite <- app_assoc. reflexivity.
Qed.

End FullCrawlRecords.

Lemma full_crawl_records_witness :
  exists film_dict,
    follow_next 5 chained_site list_url_1 ".json" "list" false false []
    = Some (Ok [film_dict])
    /\ scrape_film chained_site parasite_li VNone = Ok film_dict.
Proof.
  eexists. split.
  - rewrite (full_crawl_records chained_site ".json" "list" false false 1 5
               list_url_1 list_url_2
               (flat_map (kept_record chained_site VNone false list_url_2)
                  [parasite_li]) []).
    + vm_compute. reflexivity.
    + vm_compute. reflexivity.
    + vm_compute. reflexivity.
    + lia.
  - vm_compute. reflexivity.
Defined.

(** ** The diary records *)

Lemma diary_entries_flat_map (entries : list diary_entry) :
  forall films,
    diary_entries entries films = (films ++ flat_map entry_record entries)%list.
Proof.
  induction entries as [|e rest IH]; intros films; cbn [diary_entries flat_map].
  - rewrite app_nil_r. reflexivity.
  - rewrite IH. unfold entry_record at 2.
    destruct (diary_entry_dict e) as [d|x]; cbn [bind try_except].
    + rewrite <- app_assoc. reflexivity.
    + reflexivity.
Qed.

(** X12. The entries of a diary page give their records in the order of
    the page; each record has exactly the 7 keys of a diary record, and an
    entry is left out exactly when it has a [data-rating] attribute that is
    not the text of a float. *)
Theorem diary_records (entries : list diary_entry) (films : list dict) :
  diary_entries entries films = (films ++ flat_map entry_record entries)%list
  /\ (forall e d, In d (entry_record e) -> keys d = diary_keys)
  /\ (forall e, entry_record e = [] <-> bad_data_rating e = true).
Proof.
  split; [apply diary_entries_flat_map|].
  split.
  - intros e d. unfold entry_record, diary_entry_dict.
    destruct (diary_rating (de_rating e)) as [rating|x]; cbn [bind]; [|intros []].
    intros [<-|[]]. reflexivity.
  - intros e. unfold entry_record, diary_entry_dict, bad_data_rating, diary_rating.
    destruct (de_rating e) as [tag|]; cbn [bind].
    + destruct (rt_data_rating tag) as [r|]; cbn [bind].
      * destruct (py_float r) as [f|x]; cbn [bind is_ok negb]; split;
          intros H; try reflexivity; discriminate H.
      * split; intros H; discriminate H.
    + split; intros H; discriminate H.
Qed.

Lemma diary_records_witness :
  exists d, entry_record one_entry = [d] /\ keys d = diary_keys.
Proof.
  destruct (entry_record one_entry) as [|d [|]] eqn:E;
    try (vm_compute in E; discriminate E).
  exists d. split; [reflexivity|].
  apply (proj1 (proj2 (diary_records [] [])) one_entry d).
  rewrite E. left. reflexivity.
Defined.

Lemma rstrip_slash_twice (l : chars) :
  rstrip_by (in_set "/") (l ++ ["/"%char])%list = rstrip_by (in_set "/") l.
Proof.
  unfold rstrip_by. rewrite rev_app_distr. reflexivity.
Qed.

Lemma diary_page_url_slash (base_url page : string) :
  diary_page_url (base_url ++ "/") page = diary_page_url base_url page.
Proof.
  unfold diary_page_url, rstrip_chars.
  rewrite chars_of_append. change (chars_of "/") with ["/"%char].
  rewrite rstrip_slash_twice. reflexivity.
Qed.

Lemma diary_pages_same_base (get : web) (base_url base_url' : string)
    (pages : list string) :
  (forall page, diary_page_url base_url page = diary_page_url base_url' page) ->
  forall films,
    diary_pages get base_url pages films = diary_pages get base_url' pages films.
Proof.
  intros Hsame. induction pages as [|page rest IH]; intros films.
  - reflexivity.
  - pose proof (Hsame page) as Hp.
    destruct (get (diary_page_url base_url page)) as [resp|e] eqn:Hget.
    + rewrite (diary_pages_cons _ _ _ _ _ _ Hget).
      rewrite Hp in Hget. rewrite (diary_pages_cons _ _ _ _ _ _ Hget).
      destruct (entries_of resp); [apply IH | reflexivity].
    + cbn [diary_pages]. unfold diary_page_url in Hget, Hp.
      rewrite <- Hp, Hget. reflexivity.
Qed.

(** X13. The slashes at the end of the URL of a diary do not matter: with
    one more, the same pages are fetched and the crawl gives the same
    result. *)
Theorem diary_url_trailing_slash
    (get : web) (base_url : string) (page_options : page_options)
    (output_file_extension : string) (quiet concat : bool) :
  scrape_diary get (base_url ++ "/") page_options output_file_extension quiet concat
  = scrape_diary get base_url page_options output_file_extension quiet concat.
Proof.
  unfold scrape_diary.
  rewrite (diary_pages_same_base get (base_url ++ "/") base_url _
             (diary_page_url_slash base_url)).
  reflexivity.
Qed.


(** ** The diary object and the command *)

(** X14. The [entries] property fetches the diary at most once as long as
    the answer is not [None]: a second access gives the same value without
    a new call; after a [None] answer every access calls [get_diary]
    again. *)
Theorem entries_fetched_once
    (get_diary : nat -> Diary.pyval) (self self' : DiaryMain.diary)
    (v : Diary.pyval) :
  DiaryMain.entries get_diary self = (v, self') ->
  (v <> Diary.PNone -> DiaryMain.entries get_diary self' = (v, self'))
  /\ (v = Diary.PNone ->
      DiaryMain.fetches (snd (DiaryMain.entries get_diary self'))
      = S (DiaryMain.fetches self')).
Proof.
  unfold DiaryMain.entries. intros H.
  destruct (DiaryMain._entries self) eqn:E; injection H as <- <-.
  - split.
    + intros Hv. cbn [DiaryMain._entries].
      destruct (get_diary (DiaryMain.fetches self)); try reflexivity.
      contradiction.
    + intros Hv. cbn [DiaryMain._entries]. rewrite Hv. reflexivity.
  - split; [intros _; rewrite E; reflexivity | discriminate].
  - split; [intros _; rewrite E; reflexivity | discriminate].
  - split; [intros _; rewrite E; reflexivity | discriminate].
  - split; [intros _; rewrite E; reflexivity | discriminate].
  - split; [intros _; rewrite E; reflexivity | discriminate].
Qed.

Lemma entries_fetched_once_witness :
  DiaryMain.entries (fun _ => raw_diary)
    (snd (DiaryMain.entries (fun _ => raw_diary) (DiaryMain.new_diary "user")))
  = DiaryMain.entries (fun _ => raw_diary) (DiaryMain.new_diary "user").
Proof.
  apply (proj1 (entries_fetched_once (fun _ => raw_diary)
                  (DiaryMain.new_diary "user") _ raw_diary eq_refl)).
  discriminate.
Defined.

(** X15. The [--debug] option changes what the command does: for a diary
    whose ["entries"] value is not a mapping, the sample of the option
    raises [AttributeError] and nothing is saved, while without the option
    the same diary is saved.  For every other diary the option changes
    nothing. *)
Theorem debug_option_can_block_the_save
    (get_diary : nat -> Diary.pyval) (user : string) :
  (forall d sub,
     get_diary 0%nat = Diary.PDict d ->
     Diary.lookup "entries" d = Some sub ->
     Diary.is_dict sub = false ->
     DiaryMain.main true get_diary user = DiaryMain.Failed AttributeError
     /\ DiaryMain.main false get_diary user
        = DiaryMain.Saved Diary.fieldnames
            (Diary.rows_of (Diary.normalize (Diary.PDict d))))
  /\ ((forall d sub,
         get_diary 0%nat = Diary.PDict d ->
         Diary.lookup "entries" d = Some sub ->
         Diary.is_dict sub = true) ->
      DiaryMain.main true get_diary user = DiaryMain.main false get_diary user).
Proof.
  split.
  - intros d sub Hget Hentries Hsub.
    unfold DiaryMain.main, DiaryMain.new_diary, DiaryMain.entries.
    cbn [DiaryMain._entries DiaryMain.fetches]. rewrite Hget.
    cbn [DiaryMain._entries DiaryMain.debug_sample]. rewrite Hentries.
    split.
    + destruct sub; try reflexivity. discriminate Hsub.
    + unfold Diary.save_diary.
      destruct d; [discriminate Hentries | reflexivity].
  - intros Hshape.
    unfold DiaryMain.main, DiaryMain.new_diary, DiaryMain.entries.
    cbn [DiaryMain._entries DiaryMain.fetches].
    destruct (get_diary 0%nat) as [| | | | l | d] eqn:Hget; try reflexivity.
    cbn [DiaryMain.debug_sample].
    destruct (Diary.lookup "entries" d) as [sub|] eqn:Hentries; [|reflexivity].
    pose proof (Hshape d sub eq_refl Hentries) as Hsub.
    destruct sub; try discriminate Hsub. reflexivity.
Qed.

Lemma debug_option_can_block_the_save_witness :
  DiaryMain.main true
    (fun _ => Diary.PDict [("entries", Diary.PList [Diary.PDict entries_a_b])]) "user"
  = DiaryMain.Failed AttributeError
  /\ exists rows,
       DiaryMain.main false
         (fun _ => Diary.PDict [("entries", Diary.PList [Diary.PDict entries_a_b])])
         "user"
       = DiaryMain.Saved Diary.fieldnames rows
       /\ List.length rows = 1%nat.
Proof.
  destruct (proj1 (debug_option_can_block_the_save
                     (fun _ => Diary.PDict
                                 [("entries", Diary.PList [Diary.PDict entries_a_b])])
                     "user")
              [("entries", Diary.PList [Diary.PDict entries_a_b])]
              (Diary.PList [Diary.PDict entries_a_b]) eq_refl eq_refl eq_refl)
    as [Hdebug Hplain].
  split; [exact Hdebug|].
  eexists. split; [exact Hplain | reflexivity].
Defined.

(** ** The rows of the diary *)

Lemma reads_back_4 : forallb (reads_back 4) (upto (Z.to_nat 10000)) = true.
Proof. vm_compute. reflexivity. Qed.

Lemma reads_back_2 : forallb (reads_back 2) (upto (Z.to_nat 100)) = true.
Proof. vm_compute. reflexivity. Qed.

Lemma reads_back_below (w : nat) (n x : Z) :
  forallb (reads_back w) (upto (Z.to_nat n)) = true ->
  0 <= x < n ->
  String.length (Diary.format_0d w x) = w /\ py_int (Diary.format_0d w x) = Ok x.
Proof.
  intros Hall Hx. rewrite forallb_forall in Hall.
  assert (Hin : In x (upto (Z.to_nat n))).
  { unfold upto. apply in_map_iff. exists (Z.to_nat x).
    split; [lia|]. apply in_seq. lia. }
  apply Hall in Hin. unfold reads_back in Hin.
  apply andb_prop in Hin. destruct Hin as [Hlen Hread].
  apply Nat.eqb_eq in Hlen. split; [exact Hlen|].
  destruct (py_int (Diary.format_0d w x)) as [x'|e]; [|discriminate Hread].
  apply Z.eqb_eq in Hread. subst x'. reflexivity.
Qed.

(** X16. A date whose year, month and day are integers of at most 4, 2 and
    2 digits is written as the 10 characters YYYY-MM-DD, and each part
    reads back as the integer it was written from. *)
Theorem iso_date_reads_back (date_obj : Diary.pydict) (y m d : Z) :
  Diary.lookup "year" date_obj = Some (Diary.PInt y) ->
  Diary.lookup "month" date_obj = Some (Diary.PInt m) ->
  Diary.lookup "day" date_obj = Some (Diary.PInt d) ->
  0 <= y <= 9999 -> 0 <= m <= 99 -> 0 <= d <= 99 ->
  exists ys ms ds,
    Diary.date_str date_obj = Diary.Text (ys ++ "-" ++ ms ++ "-" ++ ds)
    /\ String.length ys = 4%nat /\ String.length ms = 2%nat
    /\ String.length ds = 2%nat
    /\ py_int ys = Ok y /\ py_int ms = Ok m /\ py_int ds = Ok d.
Proof.
  intros Hy Hm Hd Ry Rm Rd.
  exists (Diary.format_0d 4 y), (Diary.format_0d 2 m), (Diary.format_0d 2 d).
  destruct (reads_back_below 4 10000 y reads_back_4 ltac:(lia)) as [Ly Py].
  destruct (reads_back_below 2 100 m reads_back_2 ltac:(lia)) as [Lm Pm].
  destruct (reads_back_below 2 100 d reads_back_2 ltac:(lia)) as [Ld Pd].
  repeat split; try assumption.
  unfold Diary.date_str, Diary.present, Diary.get.
  cbn [forallb]. rewrite Hy, Hm, Hd.
  destruct date_obj; [discriminate Hy | reflexivity].
Qed.

Lemma iso_date_reads_back_witness :
  exists ys ms ds,
    Diary.date_str (date_of 2025 3 9) = Diary.Text (ys ++ "-" ++ ms ++ "-" ++ ds)
    /\ py_int ys = Ok 2025 /\ py_int ms = Ok 3 /\ py_int ds = Ok 9.
Proof.
  destruct (iso_date_reads_back (date_of 2025 3 9) 2025 3 9
              eq_refl eq_refl eq_refl ltac:(lia) ltac:(lia) ltac:(lia))
    as (ys & ms & ds & Hs & _ & _ & _ & Py & Pm & Pd).
  exists ys, ms, ds. repeat split; assumption.
Defined.

Lemma filter_filter {A} (p : A -> bool) (l : list A) :
  filter p (filter p l) = filter p l.
Proof.
  induction l as [|a l IH]; simpl.
  - reflexivity.
  - destruct (p a) eqn:E; simpl; [rewrite E, IH|]; auto.
Qed.

(** X17. Every entry the normalization yields is a mapping, whatever the
    input; and normalizing the list it yields changes nothing. *)
Theorem normalize_yields_mappings (entries : Diary.pyval) :
  forallb Diary.is_dict (Diary.normalize entries) = true
  /\ Diary.normalize (Diary.PList (Diary.normalize entries))
     = Diary.normalize entries.
Proof.
  assert (H : exists l, Diary.normalize entries = filter Diary.is_dict l).
  { unfold Diary.normalize. eexists. reflexivity. }
  destruct H as [l ->]. split.
  - apply forallb_forall. intros x Hx. apply filter_In in Hx. tauto.
  - cbn [Diary.normalize]. apply filter_filter.
Qed.

(** X18. In the columns name, slug, id, release and runtime a value that is
    missing or false for Python (None, False, 0, an empty text, list or
    mapping) is written as an empty cell; a flag of the actions is written
    1 or 0. *)
Theorem row_cells (entry : Diary.pydict) :
  (forall k, In k ["name"; "slug"; "id"; "release"; "runtime"] ->
     Diary.truthy (Diary.get k (Diary.PStr "") entry) = false ->
     cell_at k (Diary.row_of entry) = Some (Diary.Text ""))
  /\ (forall actions k b,
        Diary.lookup "actions" entry = Some (Diary.PDict actions) ->
        In k ["rewatched"; "rating"; "liked"; "reviewed"] ->
        Diary.lookup k actions = Some (Diary.PBool b) ->
        cell_at k (Diary.row_of entry)
        = Some (Diary.Text (if b then "1" else "0"))).
Proof.
  split.
  - intros k Hk Hfalse. simpl in Hk.
    repeat (destruct Hk as [<-|Hk];
            [cbn [Diary.row_of cell_at String.eqb Ascii.eqb Bool.eqb];
             unfold Diary.or_empty; rewrite Hfalse; reflexivity|]).
    contradiction.
  - intros actions k b Hactions Hk Hflag. simpl in Hk.
    repeat (destruct Hk as [<-|Hk];
            [cbn [Diary.row_of cell_at String.eqb Ascii.eqb Bool.eqb];
             unfold Diary.sub_dict, Diary.get; rewrite Hactions, Hflag;
             reflexivity|]).
    contradiction.
Qed.

Lemma row_cells_witness :
  cell_at "runtime" (Diary.row_of [("runtime", Diary.PInt 0)]) = Some (Diary.Text "")
  /\ cell_at "liked"
       (Diary.row_of [("actions", Diary.PDict [("liked", Diary.PBool false)])])
     = Some (Diary.Text "0").
Proof.
  split.
  - apply (proj1 (row_cells [("runtime", Diary.PInt 0)])).
    + simpl. tauto.
    + reflexivity.
  - apply (proj2 (row_cells [("actions", Diary.PDict [("liked", Diary.PBool false)])])
             [("liked", Diary.PBool false)] "liked" false).
    + reflexivity.
    + simpl. tauto.
    + reflexivity.
Defined.


(** ** The number of fans *)

Lemma binary_round_aux_nonneg (m e : Z) (l : location) :
  nonneg_float (binary_round_aux prec emax false m e l) = true.
Proof.
  unfold binary_round_aux.
  destruct (shr_fexp prec emax m e l) as [mrs' e'].
  destruct (shr_fexp prec emax _ e' loc_Exact) as [mrs'' e''].
  destruct (shr_m mrs''); try reflexivity.
  destruct (e'' <=? emax - prec); reflexivity.
Qed.

Lemma binary_normalize_nonneg (m e : Z) :
  0 <= m -> nonneg_float (binary_normalize prec emax m e false) = true.
Proof.
  intros Hm. destruct m as [|p|p]; [reflexivity | | lia].
  unfold binary_normalize, binary_round.
  destruct (shl_align _ _ _) as [mz ez]. apply binary_round_aux_nonneg.
Qed.

Lemma float_of_decimal_nonneg (m e : Z) :
  nonneg_float (float_of_decimal false m e) = true.
Proof.
  unfold float_of_decimal. destruct m as [|p|p]; try reflexivity.
  destruct (0 <=? e) eqn:He.
  - apply binary_normalize_nonneg. apply Z.leb_le in He.
    apply Z.mul_nonneg_nonneg; [lia | apply Z.pow_nonneg; lia].
  - unfold float_of_ratio.
    destruct (SFdiv_core_binary _ _ _ _ _ _) as [[mz ez] lz].
    apply binary_round_aux_nonneg.
Qed.

Lemma fmul_1000_nonneg (f : float) :
  nonneg_float f = true -> nonneg_float (fmul f (float_of_Z 1000)) = true.
Proof.
  intros Hf.
  assert (E : exists m e, float_of_Z 1000 = S754_finite false m e)
    by (do 2 eexists; vm_compute; reflexivity).
  destruct E as [m [e ->]]. unfold fmul.
  destruct f as [s|s| |s mx ex]; cbn [SFmul nonneg_float] in *.
  - rewrite xorb_false_r. exact Hf.
  - rewrite xorb_false_r. exact Hf.
  - reflexivity.
  - destruct s; [discriminate Hf|]. apply binary_round_aux_nonneg.
Qed.

Lemma int_of_float_nonneg (f : float) (n : Z) :
  nonneg_float f = true -> int_of_float f = Ok n -> 0 <= n.
Proof.
  destruct f as [s|s| |s m e]; cbn [int_of_float nonneg_float]; intros Hf H;
    try discriminate H.
  - injection H as <-. lia.
  - destruct s; [discriminate Hf|]. injection H as <-.
    destruct (0 <=? e).
    + apply Z.shiftl_nonneg. lia.
    + apply Z.shiftr_nonneg. lia.
Qed.

Lemma lstrip_by_snoc (p : ascii -> bool) (c : ascii) (l : chars) :
  p c = false -> lstrip_by p (l ++ [c])%list = (lstrip_by p l ++ [c])%list.
Proof.
  intros Hc. induction l as [|a l IH]; simpl.
  - rewrite Hc. reflexivity.
  - destruct (p a); [exact IH | reflexivity].
Qed.

(** Stripping keeps the digit a text starts with. *)
Lemma strip_digit_head (c : ascii) (l : chars) :
  is_digit c = true ->
  exists l', strip_by is_space (c :: l) = c :: l'.
Proof.
  intros Hc. pose proof (digit_not_space c Hc) as Hs.
  unfold strip_by. rewrite (lstrip_by_head is_space c l Hs).
  unfold rstrip_by. cbn [rev]. rewrite (lstrip_by_snoc is_space c _ Hs).
  rewrite rev_app_distr. eexists. reflexivity.
Qed.

Lemma split_sign_digit (c : ascii) (l : chars) :
  is_digit c = true -> split_sign (c :: l) = (false, c :: l).
Proof.
  intros Hc. unfold split_sign.
  assert (Hminus : Ascii.eqb c "-" = false)
    by (apply Ascii.eqb_neq; intros ->; discriminate Hc).
  assert (Hplus : Ascii.eqb c "+" = false)
    by (apply Ascii.eqb_neq; intros ->; discriminate Hc).
  rewrite Hminus, Hplus. reflexivity.
Qed.

(** [float] of a text that starts with a digit is not below zero. *)
Lemma py_float_digit_head (c : ascii) (l : chars) (f : float) :
  is_digit c = true -> py_float (str_of (c :: l)) = Ok f -> nonneg_float f = true.
Proof.
  intros Hc. unfold py_float. rewrite chars_of_str_of.
  destruct (strip_digit_head c l Hc) as [l' ->].
  rewrite (split_sign_digit c l' Hc).
  destruct (_ || _).
  - intros H. injection H as <-. reflexivity.
  - destruct (String.eqb _ "nan").
    + intros H. injection H as <-. reflexivity.
    + destruct (parse_floatnumber (c :: l')) as [[m e]|]; [|discriminate].
      intros H. injection H as <-. apply float_of_decimal_nonneg.
Qed.

Lemma digitpart_more_digits_only (n : nat) :
  forall l acc, (List.length l <= n)%nat ->
  Forall (fun c => is_digit c = true) acc ->
  Forall (fun c => is_digit c = true) (fst (digitpart_more l acc)).
Proof.
  induction n as [|n IH]; intros l acc Hlen Hacc.
  - destruct l; [|simpl in Hlen; lia]. simpl. apply Forall_rev. exact Hacc.
  - destruct l as [|c l]; [simpl; apply Forall_rev; exact Hacc|].
    simpl in Hlen. cbn [digitpart_more].
    destruct (is_digit c) eqn:Hc.
    + apply IH; [lia | constructor; assumption].
    + destruct (Ascii.eqb c "_"); [|simpl; apply Forall_rev; exact Hacc].
      destruct l as [|d l]; [simpl; apply Forall_rev; exact Hacc|].
      destruct (is_digit d) eqn:Hd.
      * apply IH; [simpl in Hlen; lia | constructor; assumption].
      * simpl. apply Forall_rev. exact Hacc.
Qed.

(** [int] of a text that starts with a digit is not below zero. *)
Lemma py_int_digit_head (c : ascii) (l : chars) (n : Z) :
  is_digit c = true -> py_int (str_of (c :: l)) = Ok n -> 0 <= n.
Proof.
  intros Hc. unfold py_int. rewrite chars_of_str_of.
  destruct (strip_digit_head c l Hc) as [l' ->].
  rewrite (split_sign_digit c l' Hc).
  unfold digitpart. rewrite Hc.
  pose proof (digitpart_more_digits_only (List.length l') l' [c] (le_n _)
                (Forall_cons c Hc (Forall_nil _))) as Hds.
  destruct (digitpart_more l' [c]) as [ds [|x r]]; [|discriminate].
  intros H. injection H as <-. apply nat_of_digits_nonneg. exact Hds.
Qed.

Lemma span_digits_head (l : chars) (c : ascii) (run rest : chars) :
  span_digits l = (c :: run, rest) ->
  exists l', l = c :: l' /\ is_digit c = true.
Proof.
  destruct l as [|a l]; simpl; [discriminate|].
  destruct (is_digit a) eqn:Ha; [|discriminate].
  destruct (span_digits l) as [ds r]. intros H. injection H as <- _ _.
  exists l. split; [reflexivity | exact Ha].
Qed.

Lemma match_decimal_head (n : nat) (c : ascii) (l : chars) (m : chars) :
  match_decimal n (c :: l) = Some m -> exists m', m = c :: m'.
Proof.
  induction n as [|n IH]; [discriminate|].
  cbn [match_decimal].
  destruct (skipn (S n) (c :: l)) as [|x after]; [exact IH|].
  destruct (span_digits after) as [[|d ds] r]; [exact IH|].
  destruct (Ascii.eqb x "010"); [exact IH|].
  intros H. injection H as <-. cbn [firstn app]. eexists. reflexivity.
Qed.

(** A match of the pattern of the fans starts with a digit. *)
Lemma first_fans_match_head (l : chars) (fans : string) :
  first_fans_match l = Ok fans ->
  exists c rest, fans = str_of (c :: rest) /\ is_digit c = true.
Proof.
  induction l as [|a l IH]; [discriminate|].
  cbn [first_fans_match]. unfold match_fans_here.
  destruct (span_digits (a :: l)) as [[|c run] rest] eqn:Hspan; [exact IH|].
  destruct (span_digits_head _ _ _ _ Hspan) as [l' [Hl Hc]].
  injection Hl as <- <-.
  destruct (match_decimal (List.length (a :: run)) (a :: l)) as [m|] eqn:Hm.
  - destruct (match_decimal_head _ _ _ _ Hm) as [m' ->].
    intros H. injection H as <-. exists a, m'. split; [reflexivity | exact Hc].
  - intros H. injection H as <-. eexists a, _. split; [reflexivity | exact Hc].
Qed.

(** X19. The Fans field is never negative, whatever the text of the link
    of the fans. *)
Theorem fans_nonnegative (hist_soup : hist_page) : 0 <= fans_of hist_soup.
Proof.
  unfold fans_of.
  destruct (hp_all_link hist_soup) as [text|]; cbn [of_option bind try_except];
    [|lia].
  destruct (first_fans_match (chars_of text)) as [fans|e] eqn:Hmatch;
    cbn [bind try_except]; [|lia].
  destruct (first_fans_match_head _ _ Hmatch) as [c [rest [-> Hc]]].
  change (negb (String.eqb "." "")) with true. cbn [andb].
  destruct (contains "K" (str_of (c :: rest))).
  - unfold drop_last. rewrite chars_of_str_of.
    destruct rest as [|c' rest].
    + cbn [removelast]. vm_compute. discriminate.
    + change (removelast (c :: c' :: rest)) with (c :: removelast (c' :: rest)).
      destruct (py_float (str_of (c :: removelast (c' :: rest)))) as [f|e] eqn:Hf;
        cbn [bind try_except]; [|lia].
      apply py_float_digit_head in Hf; [|exact Hc].
      destruct (int_of_float (fmul f (float_of_Z 1000))) as [n|e] eqn:Hn;
        cbn [try_except]; [|lia].
      apply (int_of_float_nonneg _ _ (fmul_1000_nonneg f Hf) Hn).
  - destruct (py_int (str_of (c :: rest))) as [n|e] eqn:Hn; cbn [try_except]; [|lia].
    exact (py_int_digit_head c rest n Hc Hn).
Qed.
